(** * NEA electricity usage: the polling coordinator and its normalisation

    A shallow embedding of
    [custom_components/nea_electricity_usage/sensor.py]: the update
    routine [_async_update_data], the normalisation [_process_data], the
    setup routine [async_setup_entry] and the sensors that read the
    coordinator's data.

    Python objects are values of the type [value]; a raised exception is
    the [Raise] case of [result]; what [_LOGGER.error] writes is a list of
    [log_msg], in the order written.  The request itself (URL, headers,
    the timeout of 30 seconds) is not modelled: what it meets is the
    argument [fetch_outcome] of the update routine.  Exceptions are the
    subclasses of [Exception]; a cancellation, which no [except Exception]
    catches, is left out. *)

From Stdlib Require Import ZArith List String Ascii Bool Lia.
From Stdlib Require Import Sorted Permutation.
From Stdlib Require Import Floats.SpecFloat.
Import ListNotations.

Set Warnings "-register-all".

Local Open Scope string_scope.
Local Open Scope list_scope.
Local Open Scope Z_scope.

(** ** Exceptions and results *)

(** The exception classes that the modelled code can meet.  [ClientError]
    stands for [aiohttp.ClientError] and its subclasses, [TimeoutError]
    for any other [Exception] of the transport, [JSONDecodeError] for a
    body that is not JSON, [ConfigEntryNotReady] for the exception of the
    first refresh. *)
Inductive exn : Type :=
  | ValueError
  | TypeError
  | AttributeError
  | OverflowError
  | KeyError
  | IndexError
  | ClientError
  | TimeoutError
  | JSONDecodeError
  | ConfigEntryNotReady.

(** An expression either has a value or raises. *)
Inductive result (A : Type) : Type :=
  | Ok (a : A)
  | Raise (e : exn).
Arguments Ok {A} a.
Arguments Raise {A} e.

Definition rbind {A B : Type} (r : result A) (k : A -> result B) : result B :=
  match r with
  | Ok a => k a
  | Raise e => Raise e
  end.

Notation "'let?' x ':=' r 'in' k" := (rbind r (fun x => k))
  (at level 10, x pattern, r at level 100, k at level 200).

(** ** Strings: [in], [split], [int] *)

Module PyStr.

Definition chars : string -> list ascii := list_ascii_of_string.

(** The blanks that [int] and [float] strip from both ends of an ASCII
    string: tab, line feed, vertical tab, form feed, carriage return and
    space. *)
Definition is_space (c : ascii) : bool :=
  let n := N_of_ascii c in
  (((9 <=? n) && (n <=? 13)) || (n =? 32))%N.

Definition is_digit (c : ascii) : bool :=
  let n := N_of_ascii c in ((48 <=? n) && (n <=? 57))%N.

Definition digit_val (c : ascii) : Z := Z.of_N (N_of_ascii c) - 48.

Fixpoint lstrip (l : list ascii) : list ascii :=
  match l with
  | c :: r => if is_space c then lstrip r else l
  | [] => []
  end.

Definition strip (l : list ascii) : list ascii :=
  rev (lstrip (rev (lstrip l))).

(** [digit (["_"] digit)*] after its first digit: the value read so far,
    the number of digits read, and what is left. *)
Fixpoint digits_tail (acc n : Z) (l : list ascii) : Z * Z * list ascii :=
  match l with
  | c :: r =>
      if is_digit c then digits_tail (10 * acc + digit_val c) (n + 1) r
      else if Ascii.eqb c "_" then
        match r with
        | d :: r' =>
            if is_digit d
            then digits_tail (10 * acc + digit_val d) (n + 1) r'
            else (acc, n, l)
        | [] => (acc, n, l)
        end
      else (acc, n, l)
  | [] => (acc, n, [])
  end.

Definition digitpart (l : list ascii) : option (Z * Z * list ascii) :=
  match l with
  | c :: r => if is_digit c then Some (digits_tail (digit_val c) 1 r) else None
  | [] => None
  end.

(** An optional sign: [true] for a minus. *)
Definition sign (l : list ascii) : bool * list ascii :=
  match l with
  | c :: r =>
      if Ascii.eqb c "+" then (false, r)
      else if Ascii.eqb c "-" then (true, r)
      else (false, l)
  | [] => (false, [])
  end.

(** [int(s)] in base 10: blanks stripped, an optional sign, digits with
    single underscores between them.  [None] is [ValueError].  Decimal
    digits and blanks outside ASCII, which Python accepts too, are not
    recognised here, and the bound that recent interpreters put on the
    number of digits is not applied. *)
Definition int_of_string (s : string) : option Z :=
  let '(neg, l) := sign (strip (chars s)) in
  match digitpart l with
  | Some (v, _, []) => Some (if neg then - v else v)
  | _ => None
  end.

(** [c in s] for a string [c] of one character. *)
Fixpoint contains (c : ascii) (s : string) : bool :=
  match s with
  | EmptyString => false
  | String a r => Ascii.eqb a c || contains c r
  end.

(** [s.split(sep)] for a separator of one character. *)
Fixpoint split (sep : ascii) (s : string) : list string :=
  match s with
  | EmptyString => [EmptyString]
  | String a r =>
      if Ascii.eqb a sep then EmptyString :: split sep r
      else match split sep r with
           | p :: ps => String a p :: ps
           | [] => [String a EmptyString]
           end
  end.

End PyStr.

(** ** Floats: IEEE 754 binary64 *)

Module PyFloat.

Definition prec : Z := 53.
Definition emax : Z := 1024.

Definition zero : spec_float := S754_zero false.
Definition one : spec_float := binary_normalize prec emax 1 0 false.

(** [a - b] on floats. *)
Definition sub (a b : spec_float) : spec_float := SFsub prec emax a b.

(** [float(z)] for an [int]: rounded to nearest, ties to even;
    [OverflowError] when the rounded value is not finite. *)
Definition of_int (z : Z) : result spec_float :=
  match binary_normalize prec emax z 0 false with
  | S754_infinity _ => Raise OverflowError
  | f => Ok f
  end.

(** The float nearest to [m * 10 ^ e10] with the sign [neg], [0 <= m]. *)
Definition of_decimal (neg : bool) (m e10 : Z) : spec_float :=
  match m with
  | Zpos p =>
      if 0 <=? e10
      then match m * 10 ^ e10 with
           | Zpos q => binary_round prec emax neg q 0
           | _ => S754_zero neg
           end
      else
        let '(q, e, loc) :=
          SFdiv_core_binary prec emax m 0 (10 ^ (- e10)) 0 in
        binary_round_aux prec emax neg q e loc
  | _ => S754_zero neg
  end.

Definition lower (c : ascii) : ascii :=
  let n := N_of_ascii c in
  if ((65 <=? n) && (n <=? 90))%N then ascii_of_N (n + 32) else c.

Definition is_word (w : string) (l : list ascii) : bool :=
  String.eqb (string_of_list_ascii (map lower l)) w.

(** [[digitpart] "." digitpart | digitpart ["."]]: the digits read as an
    integer, how many of them follow the point, and what is left. *)
Definition mantissa (l : list ascii) : option (Z * Z * list ascii) :=
  match l with
  | [] => None
  | c :: r =>
      if Ascii.eqb c "."
      then PyStr.digitpart r
      else
        match PyStr.digitpart l with
        | None => None
        | Some (i, _, rest) =>
            match rest with
            | d :: r' =>
                if Ascii.eqb d "."
                then match PyStr.digitpart r' with
                     | Some (f, nf, rest') => Some (i * 10 ^ nf + f, nf, rest')
                     | None => Some (i, 0, r')
                     end
                else Some (i, 0, rest)
            | [] => Some (i, 0, [])
            end
        end
  end.

(** [[("e" | "E") [sign] digitpart]] up to the end of the string. *)
Definition exponent (l : list ascii) : option Z :=
  match l with
  | [] => Some 0
  | c :: r =>
      if Ascii.eqb (lower c) "e"
      then let '(neg, r1) := PyStr.sign r in
           match PyStr.digitpart r1 with
           | Some (v, _, []) => Some (if neg then - v else v)
           | _ => None
           end
      else None
  end.

(** [float(s)] for a string: blanks stripped, an optional sign, then
    [inf], [infinity] or [nan] in any case, or a decimal number with an
    optional exponent, rounded to the nearest float.  [None] is
    [ValueError].  As for [int], only ASCII digits and blanks are
    recognised. *)
Definition of_string (s : string) : option spec_float :=
  let '(neg, l) := PyStr.sign (PyStr.strip (PyStr.chars s)) in
  if is_word "inf" l || is_word "infinity" l then Some (S754_infinity neg)
  else if is_word "nan" l then Some S754_nan
  else
    match mantissa l with
    | None => None
    | Some (m, nf, rest) =>
        match exponent rest with
        | None => None
        | Some e => Some (of_decimal neg m (e - nf))
        end
    end.

End PyFloat.

(** ** Python objects *)

(** The objects that a decoded JSON body is made of, which are also the
    objects that the normalisation builds.  A [dict] is the list of its
    items in insertion order; a lookup takes the first item with the key,
    which for a [dict] (whose keys are distinct) is the only one. *)
Inductive value : Type :=
  | VNone
  | VBool (b : bool)
  | VInt (z : Z)
  | VFloat (f : spec_float)
  | VStr (s : string)
  | VList (l : list value)
  | VDict (d : list (string * value)).

Fixpoint lookup (key : string) (d : list (string * value)) : option value :=
  match d with
  | [] => None
  | (k, v) :: r => if String.eqb k key then Some v else lookup key r
  end.

(** [bool(v)] *)
Definition truthy (v : value) : bool :=
  match v with
  | VNone => false
  | VBool b => b
  | VInt z => negb (z =? 0)
  | VFloat (S754_zero _) => false
  | VFloat _ => true
  | VStr EmptyString => false
  | VStr _ => true
  | VList [] => false
  | VList _ => true
  | VDict [] => false
  | VDict _ => true
  end.

(** [d.get(key, default)] on a [dict]. *)
Definition dict_get (d : list (string * value)) (key : string) (default : value)
  : value :=
  match lookup key d with
  | Some v => v
  | None => default
  end.

(** [obj.get(key, default)]: only a [dict] has the method. *)
Definition py_get (obj : value) (key : string) (default : value) : result value :=
  match obj with
  | VDict d => Ok (dict_get d key default)
  | _ => Raise AttributeError
  end.

(** [obj[key]] for a string [key]. *)
Definition py_getitem (obj : value) (key : string) : result value :=
  match obj with
  | VDict d => match lookup key d with Some v => Ok v | None => Raise KeyError end
  | _ => Raise TypeError
  end.

(** [obj[0]] *)
Definition py_first (obj : value) : result value :=
  match obj with
  | VList (x :: _) => Ok x
  | VList [] => Raise IndexError
  | VStr (String c _) => Ok (VStr (String c EmptyString))
  | VStr EmptyString => Raise IndexError
  | VDict _ => Raise KeyError
  | VNone | VBool _ | VInt _ | VFloat _ => Raise TypeError
  end.

(** [float(v)] *)
Definition py_float (v : value) : result spec_float :=
  match v with
  | VBool b => Ok (if b then PyFloat.one else PyFloat.zero)
  | VInt z => PyFloat.of_int z
  | VFloat f => Ok f
  | VStr s =>
      match PyFloat.of_string s with
      | Some f => Ok f
      | None => Raise ValueError
      end
  | VNone | VList _ | VDict _ => Raise TypeError
  end.

(** [int(s)] for a string. *)
Definition py_int (s : string) : result Z :=
  match PyStr.int_of_string s with
  | Some z => Ok z
  | None => Raise ValueError
  end.

(** The objects that [for item in v] runs through. *)
Definition py_iter (v : value) : result (list value) :=
  match v with
  | VList l => Ok l
  | VDict d => Ok (map (fun kv => VStr (fst kv)) d)
  | VStr s => Ok (map (fun c => VStr (String c EmptyString)) (PyStr.chars s))
  | VNone | VBool _ | VInt _ | VFloat _ => Raise TypeError
  end.

(** ['/' in v] *)
Definition slash_in (v : value) : result bool :=
  match v with
  | VStr s => Ok (PyStr.contains "/" s)
  | VList l =>
      Ok (existsb (fun x => match x with
                            | VStr s => String.eqb s "/"
                            | _ => false
                            end) l)
  | VDict d => Ok (existsb (fun kv => String.eqb (fst kv) "/") d)
  | VNone | VBool _ | VInt _ | VFloat _ => Raise TypeError
  end.

(** [v.split('/')]: only a [str] has the method. *)
Definition split_slash (v : value) : result (list string) :=
  match v with
  | VStr s => Ok (PyStr.split "/" s)
  | _ => Raise AttributeError
  end.

(** [l[i]] on a list of strings. *)
Definition nth_str (l : list string) (i : nat) : result string :=
  match nth_error l i with
  | Some s => Ok s
  | None => Raise IndexError
  end.

(** [l.index(x)] *)
Fixpoint list_index (l : list string) (x : string) : result Z :=
  match l with
  | [] => Raise ValueError
  | y :: r =>
      if String.eqb y x then Ok 0
      else let? i := list_index r x in Ok (i + 1)
  end.

(** ** Logging *)

(** The lines that [_LOGGER.error] writes. *)
Inductive log_msg : Type :=
  | NoDataReceived                  (* "No data received from API" *)
  | AuthenticationFailed            (* "Authentication failed - token might be expired" *)
  | FailedToFetch (status : Z)      (* "Failed to fetch data: {response.status}" *)
  | ErrorFetching (err : exn)       (* "Error fetching data: {err}" *)
  | UnexpectedError (err : exn)     (* "Unexpected error: {err}" *)
  | ErrorProcessingItem (err : exn) (* "Error processing meter analytics item: {err}" *)
  | ErrorProcessingData (err : exn) (* "Error processing data: {err}" *)
  | ErrorInitialRefresh (err : exn) (* "Error during initial refresh: {err}" *).

(** A statement writes log lines and then ends with a value or raises. *)
Definition M (A : Type) : Type := (list log_msg * result A)%type.

Definition ret {A : Type} (a : A) : M A := ([], Ok a).
Definition raise {A : Type} (e : exn) : M A := ([], Raise e).
Definition lift {A : Type} (r : result A) : M A := ([], r).
Definition log_error (m : log_msg) : M unit := ([m], Ok tt).

Definition bind {A B : Type} (m : M A) (k : A -> M B) : M B :=
  match m with
  | (l, Ok a) => let '(l', r) := k a in (l ++ l', r)
  | (l, Raise e) => (l, Raise e)
  end.

(** [try: body except ... as err: handler err] where the clause takes every
    exception that reaches it. *)
Definition try_except {A : Type} (body : M A) (handler : exn -> M A) : M A :=
  match body with
  | (l, Ok a) => (l, Ok a)
  | (l, Raise e) => let '(l', r) := handler e in (l ++ l', r)
  end.

Notation "x <- m ;; k" := (bind m (fun x => k))
  (at level 61, m at next level, right associativity).
Notation "m ;;; k" := (bind m (fun _ => k))
  (at level 61, right associativity).

(** ** Normalisation: [_process_data] *)

Definition NEPALI_MONTHS_ORDER : list string :=
  [ "Baisakh"; "Jestha"; "Ashad"; "Shrawan"; "Bhadra"; "Ashwin";
    "Kartik"; "Mangsir"; "Poush"; "Magh"; "Falgun"; "Chaitra" ].

(** The body of the inner [try] without the [append]: the processed item,
    its fields evaluated in the order of the dict display. *)
Definition process_item (item : value) : result value :=
  let? month := py_get item "month" (VStr "Unknown") in
  let? status := py_get item "status" (VStr "Unknown") in
  let? consumed_raw := py_get item "consumedUnits" (VInt 0) in
  let? consumed_units := py_float consumed_raw in
  let? bill_raw := py_get item "billAmt" (VInt 0) in
  let? bill_amount := py_float bill_raw in
  let? payable_raw := py_get item "payableAmount" (VInt 0) in
  let? payable_amount := py_float payable_raw in
  let? bill_raw' := py_get item "billAmt" (VInt 0) in
  let? bill' := py_float bill_raw' in
  let? payable_raw' := py_get item "payableAmount" (VInt 0) in
  let? payable' := py_float payable_raw' in
  Ok (VDict [ ("month", month);
              ("status", status);
              ("consumed_units", VFloat consumed_units);
              ("bill_amount", VFloat bill_amount);
              ("payable_amount", VFloat payable_amount);
              ("rebate_amount", VFloat (PyFloat.sub bill' payable')) ]).

(** [except (ValueError, TypeError)] *)
Definition is_value_or_type_error (e : exn) : bool :=
  match e with
  | ValueError | TypeError => true
  | _ => false
  end.

(** The [for] loop over the raw items: [acc] is
    [processed_data["meter_analytics"]] as filled so far.  An item that
    raises [ValueError] or [TypeError] is logged and skipped; any other
    exception leaves the loop. *)
Fixpoint process_items (items acc : list value) : M (list value) :=
  match items with
  | [] => ret acc
  | item :: rest =>
      match process_item item with
      | Ok processed_item => process_items rest (acc ++ [processed_item])
      | Raise err =>
          if is_value_or_type_error err
          then log_error (ErrorProcessingItem err) ;;; process_items rest acc
          else raise err
      end
  end.

(** The key of the sort: the pair that the [lambda] returns for a
    processed item [x]. *)
Definition sort_key (x : value) : result (Z * Z) :=
  let? year :=
    (let? month := py_getitem x "month" in
     let? has_slash := slash_in month in
     if has_slash
     then let? month := py_getitem x "month" in
          let? parts := split_slash month in
          let? suffix := nth_str parts 1 in
          py_int suffix
     else Ok 0) in
  let? index :=
    (let? month := py_getitem x "month" in
     let? has_slash := slash_in month in
     if has_slash
     then let? month := py_getitem x "month" in
          let? parts := split_slash month in
          let? name := nth_str parts 0 in
          list_index NEPALI_MONTHS_ORDER name
     else Ok 0) in
  Ok (year, index).

(** [a < b] on pairs of integers. *)
Definition tuple_ltb (a b : Z * Z) : bool :=
  (fst a <? fst b) || ((fst a =? fst b) && (snd a <? snd b)).

Definition tuple_eqb (a b : Z * Z) : bool :=
  (fst a =? fst b) && (snd a =? snd b).

(** [list.sort(key=...)]: the keys of all the elements are computed first,
    in order, and the first one that raises ends the sort; the elements
    are then put in ascending order of their keys, compared with [<]
    only, elements with equal keys keeping their order.  A stable sort
    has one result, given here by insertion. *)
Section ListSort.

Context {A : Type}.

Fixpoint decorate (key : A -> result (Z * Z)) (l : list A)
  : result (list (Z * Z * A)) :=
  match l with
  | [] => Ok []
  | x :: r =>
      let? k := key x in
      let? dr := decorate key r in
      Ok ((k, x) :: dr)
  end.

Fixpoint insert (x : Z * Z * A) (l : list (Z * Z * A)) : list (Z * Z * A) :=
  match l with
  | [] => [x]
  | y :: r => if tuple_ltb (fst y) (fst x) then y :: insert x r else x :: y :: r
  end.

Fixpoint insertion_sort (l : list (Z * Z * A)) : list (Z * Z * A) :=
  match l with
  | [] => []
  | x :: r => insert x (insertion_sort r)
  end.

Definition list_sort (key : A -> result (Z * Z)) (l : list A) : result (list A) :=
  let? d := decorate key l in
  Ok (map snd (insertion_sort d)).

End ListSort.

(** The suite of the outer [try] of [_process_data]. *)
Definition process_data_body (data : value) : M value :=
  meter_name <- lift (py_get data "meterName" (VStr "Unknown")) ;;
  consumer_id <- lift (py_get data "consumerId" (VStr "Unknown")) ;;
  sc_num <- lift (py_get data "scNum" (VStr "Unknown")) ;;
  total_bill_raw <- lift (py_get data "totalBillAmount" (VInt 0)) ;;
  total_bill_amount <- lift (py_float total_bill_raw) ;;
  total_dues_raw <- lift (py_get data "totalDuesAmount" (VInt 0)) ;;
  total_dues_amount <- lift (py_float total_dues_raw) ;;
  raw_analytics <- lift (py_get data "meterAnalytics" (VList [])) ;;
  items <- lift (py_iter raw_analytics) ;;
  meter_analytics <- process_items items [] ;;
  meter_analytics <-
    lift (if truthy (VList meter_analytics)
          then list_sort sort_key meter_analytics
          else Ok meter_analytics) ;;
  ret (VDict [ ("meter_name", meter_name);
               ("consumer_id", consumer_id);
               ("sc_num", sc_num);
               ("total_bill_amount", VFloat total_bill_amount);
               ("total_dues_amount", VFloat total_dues_amount);
               ("meter_analytics", VList meter_analytics) ]).

(** [_process_data(self, data)]: the normalised record, or [None] after
    any exception of the suite. *)
Definition _process_data (data : value) : M value :=
  try_except (process_data_body data)
    (fun err => log_error (ErrorProcessingData err) ;;; ret VNone).

(** ** The update routine: [_async_update_data] *)

(** What the request meets: [session.get] raises, or there is a response
    with a status, whose body [response.json()] decodes or raises. *)
Inductive fetch_outcome : Type :=
  | FetchRaises (err : exn)
  | FetchResponse (status : Z) (json : result value).

(** [except aiohttp.ClientError] comes first, [except Exception] takes the
    rest. *)
Definition is_client_error (e : exn) : bool :=
  match e with
  | ClientError => true
  | _ => false
  end.

Definition _async_update_data (net : fetch_outcome) : M value :=
  try_except
    (match net with
     | FetchRaises err => raise err
     | FetchResponse status json =>
         if status =? 200 then
           data <- lift json ;;
           payload <- lift (py_get data "data" VNone) ;;
           if negb (truthy payload)
           then log_error NoDataReceived ;;; ret VNone
           else payload <- lift (py_getitem data "data") ;;
                _process_data payload
         else if status =? 401 then
           log_error AuthenticationFailed ;;; ret VNone
         else
           log_error (FailedToFetch status) ;;; ret VNone
     end)
    (fun err =>
       if is_client_error err
       then log_error (ErrorFetching err) ;;; ret VNone
       else log_error (UnexpectedError err) ;;; ret VNone).

(** ** The coordinator and the setup *)

(** [ElectricityUsageCoordinator] inherits its refresh from
    [DataUpdateCoordinator] of [homeassistant.helpers.update_coordinator],
    which belongs to the host platform and not to this repository.  The
    model keeps what the code relies on: a refresh awaits
    [_async_update_data]; the object that it returns becomes
    [coordinator.data] and the refresh has succeeded; when it raises,
    [data] stays as it was and [last_update_success] is cleared.  The
    first refresh raises [ConfigEntryNotReady] when the refresh did not
    succeed.  The guards [if coordinator.data] of [async_setup_entry] and
    of the sensors are written for the [None] that a refresh can store.
    The log lines of the base class itself are left out. *)
Record coordinator : Type := {
  data : value;
  last_update_success : bool
}.

(** [ElectricityUsageCoordinator(hass, access_token, data_url)] *)
Definition new_coordinator : coordinator :=
  {| data := VNone; last_update_success := true |}.

(** One refresh: at a tick of the schedule and at the first refresh. *)
Definition _async_refresh (net : fetch_outcome) (c : coordinator)
  : list log_msg * coordinator :=
  match _async_update_data net with
  | (logs, Ok v) => (logs, {| data := v; last_update_success := true |})
  | (logs, Raise _) => (logs, {| data := data c; last_update_success := false |})
  end.

Definition async_config_entry_first_refresh (net : fetch_outcome) (c : coordinator)
  : list log_msg * coordinator * result unit :=
  let '(logs, c') := _async_refresh net c in
  (logs, c', if last_update_success c' then Ok tt else Raise ConfigEntryNotReady).

(** The ticks of the schedule, one after the other. *)
Fixpoint run_ticks (nets : list fetch_outcome) (c : coordinator) : coordinator :=
  match nets with
  | [] => c
  | net :: rest => run_ticks rest (snd (_async_refresh net c))
  end.

(** The sensor classes. *)
Inductive sensor : Type :=
  | ElectricityTotalBillSensor
  | ElectricityTotalDuesSensor
  | ElectricityMeterNameSensor
  | ElectricityConsumerIDSensor
  | ElectricityScNumSensor
  | ElectricityMonthlyDataSensor.

(** [async_setup_entry], for a config entry that holds [access_token] and
    [data_url]: the log, the coordinator, and either the entities handed
    to [async_add_entities], each with its [meter_name], or the exception
    raised again by the [except] clause.  The update that
    [async_add_entities(entities, True)] asks of the entities is a further
    tick of the coordinator. *)
Definition async_setup_entry (net : fetch_outcome)
  : list log_msg * coordinator * result (list (sensor * value)) :=
  let '(logs, c, r) := async_config_entry_first_refresh net new_coordinator in
  match r with
  | Raise err => (logs ++ [ErrorInitialRefresh err], c, Raise err)
  | Ok _ =>
      (logs, c,
       if truthy (data c)
       then let? meter_name := py_get (data c) "meter_name" (VStr "unknown") in
            Ok [ (ElectricityTotalBillSensor, meter_name);
                 (ElectricityTotalDuesSensor, meter_name);
                 (ElectricityMeterNameSensor, meter_name);
                 (ElectricityConsumerIDSensor, meter_name);
                 (ElectricityScNumSensor, meter_name);
                 (ElectricityMonthlyDataSensor, meter_name) ]
       else Ok [])
  end.

(** [native_value] of each sensor class. *)
Definition native_value (s : sensor) (c : coordinator) : result value :=
  match s with
  | ElectricityTotalBillSensor =>
      if truthy (data c) then py_get (data c) "total_bill_amount" VNone else Ok VNone
  | ElectricityTotalDuesSensor =>
      if truthy (data c) then py_get (data c) "total_dues_amount" VNone else Ok VNone
  | ElectricityMeterNameSensor =>
      if truthy (data c) then py_get (data c) "meter_name" VNone else Ok VNone
  | ElectricityConsumerIDSensor =>
      if truthy (data c) then py_get (data c) "consumer_id" VNone else Ok VNone
  | ElectricityScNumSensor =>
      if truthy (data c) then py_get (data c) "sc_num" VNone else Ok VNone
  | ElectricityMonthlyDataSensor =>
      if truthy (data c)
      then let? analytics := py_get (data c) "meter_analytics" VNone in
           if truthy analytics
           then let? analytics := py_getitem (data c) "meter_analytics" in
                let? first := py_first analytics in
                py_getitem first "consumed_units"
           else Ok VNone
      else Ok VNone
  end.

(** [ElectricityMonthlyDataSensor.extra_state_attributes] *)
Definition extra_state_attributes (c : coordinator) : result value :=
  if truthy (data c)
  then let? analytics := py_get (data c) "meter_analytics" (VList []) in
       Ok (VDict [("monthly_data", analytics)])
  else Ok (VDict []).

Definition all_sensors : list sensor :=
  [ ElectricityTotalBillSensor; ElectricityTotalDuesSensor;
    ElectricityMeterNameSensor; ElectricityConsumerIDSensor;
    ElectricityScNumSensor; ElectricityMonthlyDataSensor ].

(** ** Vocabulary of the statements *)

(** [a <= b] on pairs of integers. *)
Definition tuple_le (a b : Z * Z) : Prop :=
  fst a < fst b \/ (fst a = fst b /\ snd a <= snd b).

(** The order of a decorated list. *)
Definition by_key {A : Type} (x y : Z * Z * A) : Prop :=
  tuple_le (fst x) (fst y).

(** The key of a processed item, for the items whose key does not raise. *)
Definition key_of (x : value) : Z * Z :=
  match sort_key x with
  | Ok k => k
  | Raise _ => (0, 0)
  end.

Definition key_le (x y : value) : Prop := tuple_le (key_of x) (key_of y).

Definition has_key (k : Z * Z) (x : value) : bool := tuple_eqb (key_of x) k.

(** An item that the loop skips: its processing raises [ValueError] or
    [TypeError]. *)
Definition skipped (item : value) : bool :=
  match process_item item with
  | Ok _ => false
  | Raise err => is_value_or_type_error err
  end.

(** The processed items of the raw items that process, in the raw order. *)
Definition kept (items : list value) : list value :=
  flat_map (fun item => match process_item item with
                        | Ok processed_item => [processed_item]
                        | Raise _ => []
                        end) items.

(** A raw item that processes into an entry whose key can be computed,
    or that the loop skips. *)
Definition processes_or_skipped (item : value) : bool :=
  match process_item item with
  | Ok processed_item =>
      match sort_key processed_item with
      | Ok _ => true
      | Raise _ => false
      end
  | Raise err => is_value_or_type_error err
  end.

(** The shape of a processed item and of a normalised record. *)
Definition is_entry (x : value) : Prop :=
  exists month status consumed_units bill_amount payable_amount rebate_amount,
    x = VDict [ ("month", month);
                ("status", status);
                ("consumed_units", VFloat consumed_units);
                ("bill_amount", VFloat bill_amount);
                ("payable_amount", VFloat payable_amount);
                ("rebate_amount", VFloat rebate_amount) ].

Definition is_record (v : value) : Prop :=
  exists meter_name consumer_id sc_num total_bill_amount total_dues_amount
         meter_analytics,
    v = VDict [ ("meter_name", meter_name);
                ("consumer_id", consumer_id);
                ("sc_num", sc_num);
                ("total_bill_amount", VFloat total_bill_amount);
                ("total_dues_amount", VFloat total_dues_amount);
                ("meter_analytics", VList meter_analytics) ]
    /\ Forall is_entry meter_analytics.

(** The poll cycles that fail, by kind. *)
Inductive failed_cycle : fetch_outcome -> Prop :=
  | failed_transport err :
      failed_cycle (FetchRaises err)
  | failed_unauthorized json :
      failed_cycle (FetchResponse 401 json)
  | failed_status status json :
      status <> 200 ->
      failed_cycle (FetchResponse status json)
  | failed_body err :
      failed_cycle (FetchResponse 200 (Raise err))
  | failed_not_an_object body err :
      py_get body "data" VNone = Raise err ->
      failed_cycle (FetchResponse 200 (Ok body))
  | failed_empty_payload body payload :
      py_get body "data" VNone = Ok payload ->
      truthy payload = false ->
      failed_cycle (FetchResponse 200 (Ok body))
  | failed_malformed body payload :
      py_get body "data" VNone = Ok payload ->
      truthy payload = true ->
      snd (_process_data payload) = Ok VNone ->
      failed_cycle (FetchResponse 200 (Ok body)).

(** ** Sample data *)

Definition sample_entry (month : string) : value :=
  VDict [ ("month", VStr month);
          ("status", VStr "PAID");
          ("consumedUnits", VInt 120);
          ("billAmt", VStr "950.50");
          ("payableAmount", VInt 900) ].

Definition sample_months : list string := ["Chaitra/80"; "Baisakh/81"; "Poush/80"].

Definition sample_payload_of (analytics : list value) : value :=
  VDict [ ("meterName", VStr "Meter-1");
          ("consumerId", VStr "C-42");
          ("scNum", VStr "SC-7");
          ("totalBillAmount", VStr "1250.75");
          ("totalDuesAmount", VInt 300);
          ("meterAnalytics", VList analytics) ].

Definition sample_payload : value :=
  sample_payload_of (map sample_entry sample_months).

Definition sample_response : fetch_outcome :=
  FetchResponse 200 (Ok (VDict [("data", sample_payload)])).

(** The [month] fields of a list of entries. *)
Fixpoint months (entries : list value) : result (list value) :=
  match entries with
  | [] => Ok []
  | x :: r =>
      let? m := py_getitem x "month" in
      let? ms := months r in
      Ok (m :: ms)
  end.

(** The [month] fields of the entries of a normalised record. *)
Definition months_of (record : value) : result (list value) :=
  let? analytics := py_getitem record "meter_analytics" in
  let? entries := py_iter analytics in
  months entries.

Definition unauthorized_response : fetch_outcome :=
  FetchResponse 401 (Raise JSONDecodeError).

Definition empty_payload_response : fetch_outcome :=
  FetchResponse 200 (Ok (VDict [("data", VNone)])).

Definition transport_failure : fetch_outcome := FetchRaises ClientError.

(** The coordinator after a first poll that succeeded. *)
Definition ready_coordinator : coordinator :=
  snd (_async_refresh sample_response new_coordinator).

(** Items whose numeric fields do not parse. *)
Definition malformed_bill_entry : value :=
  VDict [ ("month", VStr "Magh/80"); ("status", VStr "DUE");
          ("consumedUnits", VInt 75); ("billAmt", VStr "n/a") ].

Definition null_units_entry : value :=
  VDict [ ("month", VStr "Falgun/80"); ("consumedUnits", VNone) ].

(** A payload with two items that parse and two that do not. *)
Definition mixed_items : list value :=
  [ sample_entry "Chaitra/80"; malformed_bill_entry;
    sample_entry "Poush/80"; null_units_entry ].

Definition mixed_payload : list (string * value) :=
  [ ("meterName", VStr "Meter-1");
    ("totalBillAmount", VStr "1250.75");
    ("meterAnalytics", VList mixed_items) ].


(** Payloads whose numeric fields all parse and whose months have a name
    outside the calendar, or a suffix that is not an integer. *)
Definition unknown_month_payload : value :=
  sample_payload_of [sample_entry "Poush/80"; sample_entry "Asar/80"].

Definition bad_year_payload : value :=
  sample_payload_of [sample_entry "Poush/80"; sample_entry "Baisakh/8x"].


(** ** The entities: identifiers, names and units *)



(** The unit of each sensor class: [_attr_native_unit_of_measurement] of
    the two amounts, the property [native_unit_of_measurement] of the
    monthly sensor, and no unit for the others. *)
Definition native_unit_of_measurement (s : sensor) : option string :=
  match s with
  | ElectricityTotalBillSensor => Some "NPR"
  | ElectricityTotalDuesSensor => Some "NPR"
  | ElectricityMonthlyDataSensor => Some "kWh"
  | ElectricityMeterNameSensor
  | ElectricityConsumerIDSensor
  | ElectricityScNumSensor => None
  end.

(** ** Further vocabulary *)

(** What the coordinator can hold: [None], or what [_process_data] has
    returned for some payload. *)
Definition produced (v : value) : Prop :=
  v = VNone
  \/ exists payload, snd (_process_data payload) = Ok v /\ v <> VNone.

(** An entry whose rebate is the difference of its two amounts. *)
Definition rebate_is_difference (x : value) : Prop :=
  exists month status consumed_units bill_amount payable_amount,
    x = VDict [ ("month", month);
                ("status", status);
                ("consumed_units", VFloat consumed_units);
                ("bill_amount", VFloat bill_amount);
                ("payable_amount", VFloat payable_amount);
                ("rebate_amount",
                 VFloat (PyFloat.sub bill_amount payable_amount)) ].

(** A float, or [None]. *)
Definition float_or_none (v : value) : Prop :=
  v = VNone \/ exists f, v = VFloat f.

(** An item that ends the loop: its processing raises something else
    than [ValueError] and [TypeError]. *)
Definition aborts (item : value) : bool :=
  match process_item item with
  | Ok _ => false
  | Raise err => negb (is_value_or_type_error err)
  end.

(** The log lines of the items that raise, in the raw order. *)
Definition item_lines (items : list value) : list log_msg :=
  flat_map (fun item => match process_item item with
                        | Ok _ => []
                        | Raise err => [ErrorProcessingItem err]
                        end) items.

(** A payload with the given [meterAnalytics], whatever its type. *)
Definition payload_with_analytics (analytics : value) : list (string * value) :=
  [ ("meterName", VStr "Meter-1"); ("meterAnalytics", analytics) ].

(** An item whose month is [null], and one with an integer too large for
    a float. *)
Definition null_month_entry : value :=
  VDict [ ("month", VNone); ("consumedUnits", VInt 10) ].

Definition huge_units_entry : value :=
  VDict [ ("month", VStr "Magh/80"); ("consumedUnits", VInt (2 ^ 1024)) ].

(** An item whose bill is an integer too large for a float, after units
    that parse. *)
Definition huge_bill_entry : value :=
  VDict [ ("month", VStr "Magh/80"); ("consumedUnits", VStr "75");
          ("billAmt", VInt (2 ^ 1024)) ].

(** Lists with an item that parses, an item that the loop skips, and an
    item that is not an object or that overflows. *)
Definition items_with_null : list value :=
  [ sample_entry "Poush/80"; malformed_bill_entry; VNone ].

Definition items_with_huge_units : list value :=
  [ sample_entry "Poush/80"; malformed_bill_entry; huge_units_entry ].

(** The fields of [sample_payload] and a body that carries them. *)
Definition sample_dict : list (string * value) :=
  [ ("meterName", VStr "Meter-1");
    ("consumerId", VStr "C-42");
    ("scNum", VStr "SC-7");
    ("totalBillAmount", VStr "1250.75");
    ("totalDuesAmount", VInt 300);
    ("meterAnalytics", VList (map sample_entry sample_months)) ].

Definition sample_body : value := VDict [("data", VDict sample_dict)].

(** An item without a month, and a payload that holds it before an item
    with a negative year. *)
Definition no_month_entry : value := VDict [ ("consumedUnits", VInt 5) ].

Definition negative_year_payload : value :=
  sample_payload_of [no_month_entry; sample_entry "Baisakh/-1"].
(** * Facts *)

(** ** The order on keys *)

Lemma tuple_ltb_spec (a b : Z * Z) :
  tuple_ltb a b = true <-> fst a < fst b \/ (fst a = fst b /\ snd a < snd b).
Proof.
  unfold tuple_ltb.
  rewrite orb_true_iff, andb_true_iff, !Z.ltb_lt, Z.eqb_eq.
  reflexivity.
Qed.

Lemma tuple_not_ltb_le (a b : Z * Z) : tuple_ltb b a = false -> tuple_le a b.
Proof.
  intros H. unfold tuple_le.
  destruct (Z.lt_trichotomy (fst a) (fst b)) as [Hlt | [Heq | Hgt]].
  - now left.
  - right. split; [exact Heq|].
    destruct (Z.le_gt_cases (snd a) (snd b)) as [Hle | Hgt]; [exact Hle|].
    assert (tuple_ltb b a = true) by (apply tuple_ltb_spec; right; lia).
    congruence.
  - assert (tuple_ltb b a = true) by (apply tuple_ltb_spec; left; lia).
    congruence.
Qed.

Lemma tuple_ltb_le (a b : Z * Z) : tuple_ltb a b = true -> tuple_le a b.
Proof.
  intros H. apply tuple_ltb_spec in H. unfold tuple_le. lia.
Qed.

Lemma tuple_le_trans (a b c : Z * Z) : tuple_le a b -> tuple_le b c -> tuple_le a c.
Proof. unfold tuple_le. lia. Qed.

Lemma tuple_eqb_eq (a b : Z * Z) : tuple_eqb a b = true <-> a = b.
Proof.
  unfold tuple_eqb. rewrite andb_true_iff, !Z.eqb_eq.
  destruct a, b; simpl. split; [intros [-> ->]; reflexivity | intros [= -> ->]; auto].
Qed.

Lemma tuple_ltb_eqb_excl (a b k : Z * Z) :
  tuple_ltb a b = true -> tuple_eqb a k = true -> tuple_eqb b k = true -> False.
Proof.
  intros Hlt Ha Hb.
  apply tuple_eqb_eq in Ha, Hb. subst.
  apply tuple_ltb_spec in Hlt. lia.
Qed.

(** ** The sort: a permutation, in order, and stable *)

Section ListSortFacts.

Context {A : Type}.
Implicit Types (x y : Z * Z * A) (l : list (Z * Z * A)).

Lemma insert_perm x l : Permutation (x :: l) (insert x l).
Proof.
  induction l as [| y r IH]; simpl.
  - reflexivity.
  - destruct (tuple_ltb (fst y) (fst x)).
    + rewrite perm_swap. now apply perm_skip.
    + reflexivity.
Qed.

Lemma insertion_sort_perm l : Permutation l (insertion_sort l).
Proof.
  induction l as [| x r IH]; simpl.
  - reflexivity.
  - rewrite <- insert_perm. now apply perm_skip.
Qed.

Lemma insert_sorted x l :
  StronglySorted by_key l -> StronglySorted by_key (insert x l).
Proof.
  induction 1 as [| y r Hr IH Hy]; simpl.
  - repeat constructor.
  - destruct (tuple_ltb (fst y) (fst x)) eqn:E.
    + constructor; [exact IH|].
      rewrite <- insert_perm. constructor; [|exact Hy].
      now apply tuple_ltb_le.
    + assert (Hxy : by_key x y) by now apply tuple_not_ltb_le.
      constructor; [now constructor|].
      constructor; [exact Hxy|].
      eapply Forall_impl; [|exact Hy].
      intros z Hz. unfold by_key in *. eapply tuple_le_trans; eassumption.
Qed.

Lemma insertion_sort_sorted l : StronglySorted by_key (insertion_sort l).
Proof.
  induction l as [| x r IH]; simpl.
  - constructor.
  - now apply insert_sorted.
Qed.

(** Elements of one key keep their order. *)
Lemma insert_stable k x l :
  filter (fun y => tuple_eqb (fst y) k) (insert x l)
  = filter (fun y => tuple_eqb (fst y) k) (x :: l).
Proof.
  induction l as [| y r IH]; [reflexivity|].
  simpl insert. destruct (tuple_ltb (fst y) (fst x)) eqn:E; [|reflexivity].
  cbn [filter] in *. rewrite IH.
  destruct (tuple_eqb (fst y) k) eqn:Ey, (tuple_eqb (fst x) k) eqn:Ex;
    try reflexivity.
  exfalso. eapply tuple_ltb_eqb_excl; eassumption.
Qed.

Lemma insertion_sort_stable k l :
  filter (fun y => tuple_eqb (fst y) k) (insertion_sort l)
  = filter (fun y => tuple_eqb (fst y) k) l.
Proof.
  induction l as [| x r IH]; [reflexivity|].
  simpl insertion_sort. rewrite insert_stable.
  cbn [filter]. now rewrite IH.
Qed.

(** A list in order is its own sort. *)
Lemma insertion_sort_of_sorted l :
  StronglySorted by_key l -> insertion_sort l = l.
Proof.
  induction 1 as [| x r Hr IH Hx]; [reflexivity|].
  simpl. rewrite IH.
  destruct r as [| y r']; [reflexivity|].
  simpl. inversion Hx as [| ? ? Hxy _]; subst.
  destruct (tuple_ltb (fst y) (fst x)) eqn:E; [|reflexivity].
  exfalso. apply tuple_ltb_spec in E. unfold by_key, tuple_le in Hxy. lia.
Qed.

Lemma decorate_ok (key : A -> result (Z * Z)) (items : list A) d :
  decorate key items = Ok d ->
  map snd d = items /\ Forall (fun kx => key (snd kx) = Ok (fst kx)) d.
Proof.
  revert d. induction items as [| a r IH]; simpl; intros d H.
  - injection H as <-. split; constructor.
  - destruct (key a) as [k |] eqn:Ek; simpl in H; [|discriminate].
    destruct (decorate key r) as [dr |] eqn:Er; simpl in H; [|discriminate].
    injection H as <-. destruct (IH dr eq_refl) as [Hm Hf].
    split; simpl; [now rewrite Hm | constructor; [exact Ek | exact Hf]].
Qed.

Lemma decorate_raises (key : A -> result (Z * Z)) (items : list A) a err :
  In a items -> key a = Raise err -> exists err', decorate key items = Raise err'.
Proof.
  induction items as [| b r IH]; simpl; [tauto|].
  intros [-> | Hin] Ha.
  - rewrite Ha. simpl. eauto.
  - destruct (key b); simpl; [|eauto].
    destruct (IH Hin Ha) as [err' ->]. simpl. eauto.
Qed.

Lemma decorate_total (key : A -> result (Z * Z)) (items : list A) :
  Forall (fun a => exists k, key a = Ok k) items ->
  exists d, decorate key items = Ok d.
Proof.
  induction 1 as [| a r [k Hk] _ [d Hd]]; simpl; [eauto|].
  rewrite Hk, Hd. simpl. eauto.
Qed.

End ListSortFacts.

(** A stable sort has one result: two lists in order whose elements of
    each key are the same, in the same order, are equal. *)
Section StableSortUnique.

Context {A : Type} (f : A -> Z * Z).

Lemma filter_key_in (k : Z * Z) (a : A) (l : list A) :
  In a (filter (fun b => tuple_eqb (f b) k) l) -> In a l /\ f a = k.
Proof.
  intros H. apply filter_In in H as [Hin Hk]. split; [exact Hin|].
  now apply tuple_eqb_eq.
Qed.

Lemma in_filter_key (a : A) (l : list A) : In a l -> In a (filter (fun b => tuple_eqb (f b) (f a)) l).
Proof.
  intros H. apply filter_In. split; [exact H|]. now apply tuple_eqb_eq.
Qed.

Lemma stable_sort_unique (l1 l2 : list A) :
  StronglySorted (fun a b => tuple_le (f a) (f b)) l1 ->
  StronglySorted (fun a b => tuple_le (f a) (f b)) l2 ->
  (forall k, filter (fun b => tuple_eqb (f b) k) l1 = filter (fun b => tuple_eqb (f b) k) l2) ->
  l1 = l2.
Proof.
  intros H1. revert l2. induction H1 as [| x r1 Hr1 IH Hx]; intros l2 H2 Hf.
  - destruct l2 as [| y r2]; [reflexivity|].
    pose proof (in_filter_key y (y :: r2) (or_introl eq_refl)) as Hy.
    rewrite <- Hf in Hy. destruct Hy.
  - destruct H2 as [| y r2 Hr2 Hy].
    { pose proof (in_filter_key x (x :: r1) (or_introl eq_refl)) as Hin.
      rewrite Hf in Hin. destruct Hin. }
    (* the heads have the same key *)
    assert (Hxy : f y = f x).
    { assert (Hxin : In x (y :: r2)).
      { pose proof (in_filter_key x (x :: r1) (or_introl eq_refl)) as Hin.
        rewrite Hf in Hin. now apply filter_key_in in Hin. }
      assert (Hyin : In y (x :: r1)).
      { pose proof (in_filter_key y (y :: r2) (or_introl eq_refl)) as Hin.
        rewrite <- Hf in Hin. now apply filter_key_in in Hin. }
      assert (Hle1 : tuple_le (f x) (f y)).
      { destruct Hyin as [<- | Hin]; [unfold tuple_le; lia|].
        rewrite Forall_forall in Hx. now apply Hx. }
      assert (Hle2 : tuple_le (f y) (f x)).
      { destruct Hxin as [<- | Hin]; [unfold tuple_le; lia|].
        rewrite Forall_forall in Hy. now apply Hy. }
      unfold tuple_le in Hle1, Hle2.
      destruct (f x) as [a b], (f y) as [a' b']; cbn [fst snd] in *.
      f_equal; lia. }
    (* hence the heads are equal, and so are the tails *)
    pose proof (Hf (f x)) as Hk. cbn [filter] in Hk.
    rewrite Hxy, (proj2 (tuple_eqb_eq (f x) (f x)) eq_refl) in Hk.
    injection Hk as <- Hk.
    f_equal. apply IH; [exact Hr2|].
    intros k. specialize (Hf k). cbn [filter] in Hf.
    destruct (tuple_eqb (f x) k); [now injection Hf | exact Hf].
Qed.

End StableSortUnique.

(** The sort of [_process_data], on processed items. *)
Lemma list_sort_spec (entries out : list value) :
  list_sort sort_key entries = Ok out ->
  Forall (fun x => exists k, sort_key x = Ok k) out
  /\ StronglySorted key_le out
  /\ Permutation entries out
  /\ (forall k, filter (has_key k) out = filter (has_key k) entries).
Proof.
  unfold list_sort. destruct (decorate sort_key entries) as [d |] eqn:Ed; [|discriminate].
  simpl. intros [= <-].
  destruct (decorate_ok _ _ _ Ed) as [Hm Hk].
  assert (Hks : Forall (fun kx => sort_key (snd kx) = Ok (fst kx)) (insertion_sort d)).
  { eapply Permutation_Forall; [apply insertion_sort_perm | exact Hk]. }
  assert (Hko : forall l : list (Z * Z * value),
             Forall (fun kx => sort_key (snd kx) = Ok (fst kx)) l ->
             Forall (fun kx => key_of (snd kx) = fst kx) l).
  { intros l. apply Forall_impl. intros kx H. unfold key_of. now rewrite H. }
  split; [|split; [|split]].
  - apply Forall_map. eapply Forall_impl; [|exact Hks].
    intros kx H. exists (fst kx). exact H.
  - pose proof (insertion_sort_sorted d) as Hs.
    apply Hko in Hks. revert Hs Hks.
    generalize (insertion_sort d). intros l Hs.
    induction Hs as [| kx r Hr IH Hx]; intros Hf; simpl; [constructor|].
    inversion Hf as [| ? ? Hkx Hfr]; subst.
    constructor; [now apply IH|].
    apply Forall_map. rewrite Forall_forall in *.
    intros ky Hin. unfold key_le. rewrite Hkx, (Hfr ky Hin). now apply Hx.
  - rewrite <- Hm. apply Permutation_map, insertion_sort_perm.
  - intros k. rewrite <- Hm.
    assert (Hfm : forall l : list (Z * Z * value),
               Forall (fun kx => key_of (snd kx) = fst kx) l ->
               filter (has_key k) (map snd l)
               = map snd (filter (fun kx => tuple_eqb (fst kx) k) l)).
    { induction 1 as [| kx r Hkx _ IH]; [reflexivity|].
      simpl. unfold has_key at 1. rewrite Hkx.
      destruct (tuple_eqb (fst kx) k); simpl; now rewrite IH. }
    rewrite !Hfm by now apply Hko.
    now rewrite insertion_sort_stable.
Qed.

(** Any list in order that keeps the entries of each key as they were is
    the result of the sort. *)
Lemma list_sort_unique (entries out out' : list value) :
  list_sort sort_key entries = Ok out ->
  StronglySorted key_le out' ->
  (forall k, filter (has_key k) out' = filter (has_key k) entries) ->
  out' = out.
Proof.
  intros H Hs Hf. destruct (list_sort_spec _ _ H) as (_ & Ho & _ & Hfo).
  apply (stable_sort_unique key_of); [exact Hs | exact Ho|].
  intros k. change (filter (has_key k) out' = filter (has_key k) out).
  now rewrite Hf, Hfo.
Qed.

Lemma list_sort_raises (entries : list value) x err :
  In x entries -> sort_key x = Raise err ->
  exists err', list_sort sort_key entries = Raise err'.
Proof.
  intros Hin Hx. unfold list_sort.
  destruct (decorate_raises sort_key entries x err Hin Hx) as [err' ->].
  simpl. eauto.
Qed.

Lemma list_sort_total (entries : list value) :
  Forall (fun x => exists k, sort_key x = Ok k) entries ->
  exists out, list_sort sort_key entries = Ok out.
Proof.
  intros H. unfold list_sort.
  destruct (decorate_total sort_key entries H) as [d ->]. simpl. eauto.
Qed.

(** ** The statements with a log *)

Lemma snd_bind {A B : Type} (m : M A) (k : A -> M B) :
  snd (bind m k) = match snd m with
                   | Ok a => snd (k a)
                   | Raise e => Raise e
                   end.
Proof.
  destruct m as [l [a | e]]; simpl; [|reflexivity].
  now destruct (k a).
Qed.

Lemma snd_try_except {A : Type} (body : M A) (handler : exn -> M A) :
  snd (try_except body handler) = match snd body with
                                  | Ok a => Ok a
                                  | Raise e => snd (handler e)
                                  end.
Proof.
  destruct body as [l [a | e]]; simpl; [reflexivity|].
  now destruct (handler e).
Qed.

Lemma bind_lift_ok {A B : Type} (a : A) (k : A -> M B) :
  bind (lift (Ok a)) k = k a.
Proof. unfold bind, lift. now destruct (k a). Qed.

Lemma bind_lift_raise {A B : Type} (e : exn) (k : A -> M B) :
  bind (lift (Raise e)) k = ([], Raise e).
Proof. reflexivity. Qed.

(** ** One item *)

(** The numeric fields of a raw item decide its processing. *)
Lemma process_item_dict (d : list (string * value)) :
  process_item (VDict d) =
  let? consumed_units := py_float (dict_get d "consumedUnits" (VInt 0)) in
  let? bill_amount := py_float (dict_get d "billAmt" (VInt 0)) in
  let? payable_amount := py_float (dict_get d "payableAmount" (VInt 0)) in
  Ok (VDict [ ("month", dict_get d "month" (VStr "Unknown"));
              ("status", dict_get d "status" (VStr "Unknown"));
              ("consumed_units", VFloat consumed_units);
              ("bill_amount", VFloat bill_amount);
              ("payable_amount", VFloat payable_amount);
              ("rebate_amount", VFloat (PyFloat.sub bill_amount payable_amount)) ]).
Proof.
  unfold process_item. simpl.
  destruct (py_float (dict_get d "consumedUnits" (VInt 0))); simpl; [|reflexivity].
  destruct (py_float (dict_get d "billAmt" (VInt 0))); simpl; [|reflexivity].
  destruct (py_float (dict_get d "payableAmount" (VInt 0))); simpl; reflexivity.
Qed.

Lemma process_item_not_dict (item : value) :
  (forall d, item <> VDict d) -> process_item item = Raise AttributeError.
Proof.
  intros H. destruct item; try reflexivity. now destruct (H d).
Qed.

Lemma process_item_is_entry (item processed_item : value) :
  process_item item = Ok processed_item -> is_entry processed_item.
Proof.
  destruct item; try discriminate.
  rewrite process_item_dict.
  destruct (py_float (dict_get d "consumedUnits" (VInt 0))); simpl; [|discriminate].
  destruct (py_float (dict_get d "billAmt" (VInt 0))); simpl; [|discriminate].
  destruct (py_float (dict_get d "payableAmount" (VInt 0))); simpl; [|discriminate].
  intros [= <-]. unfold is_entry. eauto 10.
Qed.

(** [float] raises [TypeError], [ValueError] or [OverflowError] only. *)
Lemma py_float_raises (v : value) err :
  py_float v = Raise err ->
  err = TypeError \/ err = ValueError \/ err = OverflowError.
Proof.
  destruct v; simpl; try (intros [= <-]; auto); try discriminate.
  - unfold PyFloat.of_int.
    destruct (binary_normalize _ _ _ _ _); try discriminate. intros [= <-]. auto.
  - destruct (PyFloat.of_string s); [discriminate|]. intros [= <-]. auto.
Qed.

(** ** The loop *)

Lemma kept_app (l1 l2 : list value) : kept (l1 ++ l2) = kept l1 ++ kept l2.
Proof. unfold kept. apply flat_map_app. Qed.

Lemma kept_is_entry (items : list value) : Forall is_entry (kept items).
Proof.
  induction items as [| item rest IH]; simpl; [constructor|].
  unfold kept in *. simpl.
  destruct (process_item item) eqn:E; simpl; [|exact IH].
  constructor; [now apply process_item_is_entry in E | exact IH].
Qed.

(** When the loop ends, it has appended the items that process. *)
Lemma process_items_ok (items acc entries : list value) :
  snd (process_items items acc) = Ok entries -> entries = acc ++ kept items.
Proof.
  revert acc. induction items as [| item rest IH]; intros acc; cbn [process_items].
  - intros [= <-]. now rewrite app_nil_r.
  - unfold kept. cbn [flat_map]. fold (kept rest).
    destruct (process_item item) as [p | err] eqn:E.
    + intros H. apply IH in H. now rewrite <- app_assoc in H.
    + destruct (is_value_or_type_error err); [|discriminate].
      rewrite snd_bind. simpl. apply IH.
Qed.

(** The loop ends when no item raises anything but [ValueError] and
    [TypeError]. *)
Lemma process_items_total (items acc : list value) :
  Forall (fun item => forall err, process_item item = Raise err ->
                                  is_value_or_type_error err = true) items ->
  snd (process_items items acc) = Ok (acc ++ kept items).
Proof.
  intros H. revert acc.
  induction H as [| item rest Hi _ IH]; intros acc; cbn [process_items].
  - simpl. now rewrite app_nil_r.
  - unfold kept. cbn [flat_map]. fold (kept rest).
    destruct (process_item item) as [p | err] eqn:E.
    + rewrite IH. now rewrite <- app_assoc.
    + rewrite (Hi err eq_refl). rewrite snd_bind. simpl. apply IH.
Qed.

(** A skipped item counts for nothing in the outcome of the loop. *)
Lemma process_items_without_skipped (items acc : list value) :
  snd (process_items items acc)
  = snd (process_items (filter (fun item => negb (skipped item)) items) acc).
Proof.
  revert acc. induction items as [| item rest IH]; intros acc; [reflexivity|].
  cbn [process_items filter]. unfold skipped at 1.
  destruct (process_item item) as [p | err] eqn:E; cbn [negb].
  - cbn [process_items]. rewrite E. apply IH.
  - destruct (is_value_or_type_error err) eqn:Ee; cbn [negb].
    + rewrite snd_bind. simpl. apply IH.
    + cbn [process_items]. rewrite E, Ee. reflexivity.
Qed.

Lemma kept_without_skipped (items : list value) :
  kept (filter (fun item => negb (skipped item)) items) = kept items.
Proof.
  induction items as [| item rest IH]; [reflexivity|].
  cbn [filter]. unfold skipped at 1.
  destruct (process_item item) as [p | err] eqn:E; cbn [negb].
  - unfold kept in *. cbn [flat_map]. now rewrite E, IH.
  - destruct (is_value_or_type_error err); cbn [negb];
      unfold kept in *; cbn [flat_map]; rewrite E; exact IH.
Qed.

(** ** [_process_data] *)

(** The suite of [_process_data] on a [dict], without its log. *)
Lemma process_data_body_dict (d : list (string * value)) :
  snd (process_data_body (VDict d)) =
  let? total_bill_amount := py_float (dict_get d "totalBillAmount" (VInt 0)) in
  let? total_dues_amount := py_float (dict_get d "totalDuesAmount" (VInt 0)) in
  let? items := py_iter (dict_get d "meterAnalytics" (VList [])) in
  let? entries := snd (process_items items []) in
  let? meter_analytics :=
    (if truthy (VList entries)
     then list_sort sort_key entries
     else Ok entries) in
  Ok (VDict [ ("meter_name", dict_get d "meterName" (VStr "Unknown"));
              ("consumer_id", dict_get d "consumerId" (VStr "Unknown"));
              ("sc_num", dict_get d "scNum" (VStr "Unknown"));
              ("total_bill_amount", VFloat total_bill_amount);
              ("total_dues_amount", VFloat total_dues_amount);
              ("meter_analytics", VList meter_analytics) ]).
Proof.
  unfold process_data_body.
  cbn [py_get]. rewrite !bind_lift_ok.
  destruct (py_float (dict_get d "totalBillAmount" (VInt 0))) as [tb | e];
    [rewrite !bind_lift_ok | rewrite bind_lift_raise; reflexivity].
  destruct (py_float (dict_get d "totalDuesAmount" (VInt 0))) as [td | e];
    [rewrite !bind_lift_ok | rewrite bind_lift_raise; reflexivity].
  destruct (py_iter (dict_get d "meterAnalytics" (VList []))) as [items | e];
    [rewrite !bind_lift_ok | rewrite bind_lift_raise; reflexivity].
  rewrite snd_bind. cbn [rbind].
  destruct (snd (process_items items [])) as [entries | e]; [|reflexivity].
  cbn [rbind].
  destruct (if truthy (VList entries) then list_sort sort_key entries else Ok entries)
    as [sorted | e]; [rewrite bind_lift_ok | rewrite bind_lift_raise]; reflexivity.
Qed.

(** The suite ends with a [dict] or raises: it never ends with [None]. *)
Lemma process_data_body_not_none (data : value) :
  snd (process_data_body data) <> Ok VNone.
Proof.
  destruct data as [| | | | | | d]; try discriminate.
  rewrite process_data_body_dict.
  destruct (py_float (dict_get d "totalBillAmount" (VInt 0))); [|discriminate].
  destruct (py_float (dict_get d "totalDuesAmount" (VInt 0))); [|discriminate].
  destruct (py_iter (dict_get d "meterAnalytics" (VList []))) as [items |];
    [|discriminate].
  cbn [rbind].
  destruct (snd (process_items items [])) as [entries |]; [|discriminate].
  cbn [rbind].
  destruct (if truthy (VList entries) then list_sort sort_key entries else Ok entries);
    discriminate.
Qed.

(** What [_process_data] returns: what the suite ends with, and [None] in
    place of an exception. *)
Lemma process_data_snd (data : value) :
  snd (_process_data data) = Ok (match snd (process_data_body data) with
                                 | Ok record => record
                                 | Raise _ => VNone
                                 end).
Proof.
  unfold _process_data. rewrite snd_try_except.
  now destruct (snd (process_data_body data)).
Qed.

Lemma process_data_dict (d : list (string * value)) :
  snd (_process_data (VDict d)) =
  Ok (match
        (let? total_bill_amount := py_float (dict_get d "totalBillAmount" (VInt 0)) in
         let? total_dues_amount := py_float (dict_get d "totalDuesAmount" (VInt 0)) in
         let? items := py_iter (dict_get d "meterAnalytics" (VList [])) in
         let? entries := snd (process_items items []) in
         let? meter_analytics :=
           (if truthy (VList entries)
            then list_sort sort_key entries
            else Ok entries) in
         Ok (VDict [ ("meter_name", dict_get d "meterName" (VStr "Unknown"));
                     ("consumer_id", dict_get d "consumerId" (VStr "Unknown"));
                     ("sc_num", dict_get d "scNum" (VStr "Unknown"));
                     ("total_bill_amount", VFloat total_bill_amount);
                     ("total_dues_amount", VFloat total_dues_amount);
                     ("meter_analytics", VList meter_analytics) ]))
      with
      | Ok record => record
      | Raise _ => VNone
      end).
Proof. now rewrite process_data_snd, process_data_body_dict. Qed.

(** A cycle that [_process_data] gives up has written its log line. *)
Lemma process_data_none_logged (data : value) :
  snd (_process_data data) = Ok VNone ->
  exists logs err, fst (_process_data data) = logs ++ [ErrorProcessingData err].
Proof.
  pose proof (process_data_body_not_none data) as Hb.
  unfold _process_data.
  destruct (process_data_body data) as [l [a | e]]; simpl in *.
  - intros H. congruence.
  - intros _. eauto.
Qed.

Lemma process_data_not_dict (data : value) :
  (forall d, data <> VDict d) -> snd (_process_data data) = Ok VNone.
Proof.
  intros H. destruct data; try reflexivity. now destruct (H d).
Qed.

(** [_process_data] never raises. *)
Lemma process_data_returns (data : value) :
  exists v, snd (_process_data data) = Ok v.
Proof. rewrite process_data_snd. eauto. Qed.

(** When it returns a record, the record is whole and is made of the raw
    fields as follows. *)
Lemma process_data_record (data record : value) :
  snd (_process_data data) = Ok record -> record <> VNone ->
  exists d total_bill_amount total_dues_amount items meter_analytics,
    data = VDict d
    /\ py_float (dict_get d "totalBillAmount" (VInt 0)) = Ok total_bill_amount
    /\ py_float (dict_get d "totalDuesAmount" (VInt 0)) = Ok total_dues_amount
    /\ py_iter (dict_get d "meterAnalytics" (VList [])) = Ok items
    /\ snd (process_items items []) = Ok (kept items)
    /\ (if truthy (VList (kept items))
        then list_sort sort_key (kept items)
        else Ok (kept items)) = Ok meter_analytics
    /\ record = VDict [ ("meter_name", dict_get d "meterName" (VStr "Unknown"));
                        ("consumer_id", dict_get d "consumerId" (VStr "Unknown"));
                        ("sc_num", dict_get d "scNum" (VStr "Unknown"));
                        ("total_bill_amount", VFloat total_bill_amount);
                        ("total_dues_amount", VFloat total_dues_amount);
                        ("meter_analytics", VList meter_analytics) ].
Proof.
  intros H Hn.
  destruct data as [| | | | | | d];
    try (rewrite process_data_not_dict in H by discriminate; congruence).
  rewrite process_data_dict in H.
  destruct (py_float (dict_get d "totalBillAmount" (VInt 0))) as [tb | e] eqn:Eb;
    cbn [rbind] in H; [|congruence].
  destruct (py_float (dict_get d "totalDuesAmount" (VInt 0))) as [td | e] eqn:Ed;
    cbn [rbind] in H; [|congruence].
  destruct (py_iter (dict_get d "meterAnalytics" (VList []))) as [items | e] eqn:Er;
    cbn [rbind] in H; [|congruence].
  destruct (snd (process_items items [])) as [entries | e] eqn:Ei;
    cbn [rbind] in H; [|congruence].
  pose proof (process_items_ok _ _ _ Ei) as He. cbn [app] in He. subst entries.
  destruct (if truthy (VList (kept items))
            then list_sort sort_key (kept items) else Ok (kept items))
    as [sorted | e] eqn:Es; cbn [rbind] in H; [|congruence].
  injection H as <-.
  exists d, tb, td, items, sorted. repeat (split; [reflexivity || assumption|]).
  reflexivity.
Qed.

(** The entries of a record that the sort has touched or left alone. *)
Lemma sorted_or_empty_entries (entries out : list value) :
  (if truthy (VList entries) then list_sort sort_key entries else Ok entries) = Ok out ->
  Forall (fun x => exists k, sort_key x = Ok k) out
  /\ StronglySorted key_le out
  /\ Permutation entries out
  /\ (forall k, filter (has_key k) out = filter (has_key k) entries).
Proof.
  destruct entries as [| x r]; cbn [truthy].
  - intros [= <-]. repeat split; constructor.
  - apply list_sort_spec.
Qed.

Lemma process_data_is_record (data record : value) :
  snd (_process_data data) = Ok record -> record <> VNone -> is_record record.
Proof.
  intros H Hn.
  destruct (process_data_record _ _ H Hn)
    as (d & tb & td & items & out & _ & _ & _ & _ & _ & Hs & ->).
  unfold is_record. do 6 eexists. split; [reflexivity|].
  apply sorted_or_empty_entries in Hs. destruct Hs as (_ & _ & Hp & _).
  eapply Permutation_Forall; [exact Hp | apply kept_is_entry].
Qed.

Lemma is_record_truthy (record : value) : is_record record -> truthy record = true.
Proof. intros (? & ? & ? & ? & ? & ? & -> & _). reflexivity. Qed.

Lemma is_record_not_none (record : value) : is_record record -> record <> VNone.
Proof. intros (? & ? & ? & ? & ? & ? & -> & _). discriminate. Qed.

(** ** [_async_update_data] *)

(** The update routine never raises. *)
Lemma update_returns (net : fetch_outcome) :
  exists v, snd (_async_update_data net) = Ok v.
Proof.
  unfold _async_update_data. rewrite snd_try_except.
  match goal with |- context [snd ?b] => destruct (snd b) as [v | e] end;
    [eauto|].
  destruct (is_client_error e); simpl; eauto.
Qed.

Lemma update_200 (body : value) :
  snd (_async_update_data (FetchResponse 200 (Ok body))) =
  match py_get body "data" VNone with
  | Ok payload => if truthy payload then snd (_process_data payload) else Ok VNone
  | Raise _ => Ok VNone
  end.
Proof.
  unfold _async_update_data. rewrite snd_try_except.
  cbn [Z.eqb Pos.eqb]. rewrite bind_lift_ok.
  destruct body as [| | | | | | d]; try reflexivity.
  cbn [py_get]. rewrite bind_lift_ok.
  destruct (truthy (dict_get d "data" VNone)) eqn:Et; cbn [negb]; [|reflexivity].
  assert (Hg : py_getitem (VDict d) "data" = Ok (dict_get d "data" VNone)).
  { unfold py_getitem, dict_get in *. destruct (lookup "data" d); [reflexivity|].
    discriminate. }
  rewrite Hg, bind_lift_ok.
  destruct (process_data_returns (dict_get d "data" VNone)) as [v Hv].
  now rewrite Hv.
Qed.

(** A failed cycle returns [None]. *)
Lemma update_failed (net : fetch_outcome) :
  failed_cycle net -> snd (_async_update_data net) = Ok VNone.
Proof.
  intros H. destruct H as [err | json | status json Hs | err | body err Hb
                          | body payload Hb Ht | body payload Hb Ht Hp].
  - unfold _async_update_data. rewrite snd_try_except. simpl.
    now destruct (is_client_error err).
  - reflexivity.
  - unfold _async_update_data. rewrite snd_try_except.
    destruct (Z.eqb_spec status 200) as [-> | _]; [congruence|].
    now destruct (status =? 401).
  - unfold _async_update_data. rewrite snd_try_except. simpl.
    now destruct (is_client_error err).
  - rewrite update_200, Hb. reflexivity.
  - rewrite update_200, Hb, Ht. reflexivity.
  - rewrite update_200, Hb, Ht. exact Hp.
Qed.

(** A cycle that returns [None] has failed in one of the listed ways. *)
Lemma update_none_failed (net : fetch_outcome) :
  snd (_async_update_data net) = Ok VNone -> failed_cycle net.
Proof.
  destruct net as [err | status [body | err]];
    [intros _; apply failed_transport | |].
  - destruct (Z.eqb_spec status 200) as [-> | Hs];
      [|intros _; now apply failed_status].
    rewrite update_200.
    destruct (py_get body "data" VNone) as [payload | e] eqn:Hb;
      [|intros _; eapply failed_not_an_object; eassumption].
    destruct (truthy payload) eqn:Ht; intros H.
    + eapply failed_malformed; eassumption.
    + eapply failed_empty_payload; eassumption.
  - intros _. destruct (Z.eqb_spec status 200) as [-> | Hs];
      [apply failed_body | now apply failed_status].
Qed.

(** What the update routine returns is [None] or a whole record. *)
Lemma update_none_or_record (net : fetch_outcome) :
  snd (_async_update_data net) = Ok VNone
  \/ exists record, snd (_async_update_data net) = Ok record /\ is_record record.
Proof.
  destruct net as [err | status json].
  { left. apply update_failed. apply failed_transport. }
  destruct (Z.eqb_spec status 200) as [-> | Hs];
    [|left; apply update_failed; now apply failed_status].
  destruct json as [body | err];
    [|left; apply update_failed; apply failed_body].
  rewrite update_200.
  destruct (py_get body "data" VNone) as [payload | e]; [|now left].
  destruct (truthy payload); [|now left].
  destruct (process_data_returns payload) as [v Hv]. rewrite Hv.
  destruct v; try (right; eexists; split; [reflexivity|];
                   eapply process_data_is_record; [exact Hv | discriminate]).
  now left.
Qed.

(** ** Months, items, fields and failed cycles *)

Lemma split_without_sep (sep : ascii) (s : string) :
  PyStr.contains sep s = false -> PyStr.split sep s = [s].
Proof.
  induction s as [| a r IH]; simpl; [reflexivity|].
  intros H. apply orb_false_iff in H as [Ha Hr].
  rewrite Ha, (IH Hr). reflexivity.
Qed.

Lemma split_with_sep (sep : ascii) (s : string) :
  PyStr.contains sep s = true ->
  exists name suffix rest, PyStr.split sep s = name :: suffix :: rest.
Proof.
  induction s as [| a r IH]; simpl; [discriminate|].
  destruct (Ascii.eqb a sep); simpl.
  - intros _. destruct r as [| b r']; simpl; [eauto|].
    destruct (Ascii.eqb b sep); [eauto|].
    destruct (PyStr.split sep r'); eauto.
  - intros H. destruct (IH H) as (name & suffix & rest & ->). eauto.
Qed.

Lemma split_two_has_sep (sep : ascii) (s name suffix : string) rest :
  PyStr.split sep s = name :: suffix :: rest -> PyStr.contains sep s = true.
Proof.
  intros H. destruct (PyStr.contains sep s) eqn:E; [reflexivity|].
  rewrite (split_without_sep _ _ E) in H. discriminate.
Qed.

(** The key of an item whose month is a string without the separator. *)
Lemma sort_key_without_slash (x : value) (s : string) :
  py_getitem x "month" = Ok (VStr s) ->
  PyStr.contains "/" s = false ->
  sort_key x = Ok (0, 0).
Proof.
  intros Hm Hc. unfold sort_key. rewrite Hm. simpl. rewrite Hc. reflexivity.
Qed.

(** The key of an item whose month is a string with the separator: the
    integer after the first slash and the place of the name before it. *)
Lemma sort_key_with_slash (x : value) (s name suffix : string) rest :
  py_getitem x "month" = Ok (VStr s) ->
  PyStr.split "/" s = name :: suffix :: rest ->
  sort_key x = (let? year := py_int suffix in
                let? index := list_index NEPALI_MONTHS_ORDER name in
                Ok (year, index)).
Proof.
  intros Hm Hs. unfold sort_key. rewrite Hm.
  cbn [rbind slash_in split_slash].
  rewrite (split_two_has_sep _ _ _ _ _ Hs), Hs. reflexivity.
Qed.

(** The months of the calendar have the places 0 to 11. *)
Lemma calendar_places :
  map (list_index NEPALI_MONTHS_ORDER) NEPALI_MONTHS_ORDER
  = map (fun i => Ok i) [0; 1; 2; 3; 4; 5; 6; 7; 8; 9; 10; 11].
Proof. reflexivity. Qed.

Lemma processes_or_skipped_cases (item : value) :
  processes_or_skipped item = true ->
  (skipped item = true /\ exists err, process_item item = Raise err)
  \/ (skipped item = false
      /\ exists processed_item k,
           process_item item = Ok processed_item
           /\ sort_key processed_item = Ok k).
Proof.
  unfold processes_or_skipped, skipped.
  destruct (process_item item) as [p | err].
  - destruct (sort_key p) as [k |] eqn:Ek; [|discriminate].
    intros _. right. split; [reflexivity|]. exists p, k. now split.
  - intros ->. left. split; [reflexivity|]. now exists err.
Qed.

(** Such items never end the loop, and each of them that is not skipped
    gives one entry, whose key can be computed. *)
Lemma processes_or_skipped_total (items : list value) :
  forallb processes_or_skipped items = true ->
  snd (process_items items []) = Ok (kept items)
  /\ Forall (fun x => exists k, sort_key x = Ok k) (kept items)
  /\ List.length (kept items)
     = List.length (filter (fun item => negb (skipped item)) items).
Proof.
  intros H. rewrite forallb_forall in H. split; [|split].
  - rewrite process_items_total; [reflexivity|].
    apply Forall_forall. intros item Hin err E.
    specialize (H item Hin). unfold processes_or_skipped in H.
    now rewrite E in H.
  - induction items as [| item rest IH]; [constructor|].
    unfold kept in *. cbn [flat_map].
    assert (Hr : forall x, In x rest -> processes_or_skipped x = true)
      by (intros x Hx; apply H; now right).
    destruct (processes_or_skipped_cases item (H item (or_introl eq_refl)))
      as [[_ [err ->]] | [_ (p & k & -> & Hk)]]; cbn [app]; [now apply IH|].
    constructor; [eauto | now apply IH].
  - induction items as [| item rest IH]; [reflexivity|].
    unfold kept in *. cbn [flat_map filter].
    assert (Hr : forall x, In x rest -> processes_or_skipped x = true)
      by (intros x Hx; apply H; now right).
    destruct (processes_or_skipped_cases item (H item (or_introl eq_refl)))
      as [[-> [err ->]] | [-> (p & k & -> & Hk)]]; cbn [app negb List.length].
    + now apply IH.
    + now rewrite IH.
Qed.

(** Two payloads that differ by skipped items of [meterAnalytics] only
    have the same outcome. *)
Lemma process_data_without_skipped (d d' : list (string * value)) (items : list value) :
  (forall key, key <> "meterAnalytics" -> lookup key d' = lookup key d) ->
  lookup "meterAnalytics" d = Some (VList items) ->
  lookup "meterAnalytics" d'
  = Some (VList (filter (fun item => negb (skipped item)) items)) ->
  snd (_process_data (VDict d')) = snd (_process_data (VDict d)).
Proof.
  intros Hsame Hd Hd'. rewrite !process_data_dict. unfold dict_get.
  rewrite Hd, Hd'.
  rewrite (Hsame "totalBillAmount"), (Hsame "totalDuesAmount"),
    (Hsame "meterName"), (Hsame "consumerId"), (Hsame "scNum") by discriminate.
  destruct (py_float match lookup "totalBillAmount" d with
                     | Some v => v
                     | None => VInt 0
                     end); [|reflexivity].
  destruct (py_float match lookup "totalDuesAmount" d with
                     | Some v => v
                     | None => VInt 0
                     end); [|reflexivity].
  cbn [py_iter rbind].
  now rewrite (process_items_without_skipped items []).
Qed.

(** An entry whose key raises ends the whole cycle. *)
Lemma key_raises_fails_cycle (d : list (string * value)) (items : list value) x err :
  py_iter (dict_get d "meterAnalytics" (VList [])) = Ok items ->
  In x (kept items) ->
  sort_key x = Raise err ->
  snd (_process_data (VDict d)) = Ok VNone.
Proof.
  intros Hi Hin Hx. rewrite process_data_dict, Hi.
  destruct (py_float (dict_get d "totalBillAmount" (VInt 0))); [|reflexivity].
  destruct (py_float (dict_get d "totalDuesAmount" (VInt 0))); [|reflexivity].
  cbn [rbind].
  destruct (snd (process_items items [])) as [entries |] eqn:Ei; [|reflexivity].
  apply process_items_ok in Ei. cbn [app] in Ei. subst entries.
  cbn [rbind].
  destruct (kept items) as [| y r] eqn:Ek; [destruct Hin|].
  cbn [truthy]. rewrite <- Ek in *.
  destruct (list_sort_raises (kept items) x err Hin Hx) as [err' ->].
  reflexivity.
Qed.

(** An item that raises anything but [ValueError] and [TypeError] ends
    the loop. *)
Lemma process_items_raises (items acc : list value) (item : value) err :
  In item items -> process_item item = Raise err ->
  is_value_or_type_error err = false ->
  exists err', snd (process_items items acc) = Raise err'.
Proof.
  revert acc. induction items as [| x rest IH]; intros acc; [intros []|].
  intros Hin E He. cbn [process_items].
  destruct (process_item x) as [p | err0] eqn:Ex.
  - destruct Hin as [-> | Hin]; [congruence | now apply IH].
  - destruct (is_value_or_type_error err0) eqn:Ee; [|simpl; eauto].
    rewrite snd_bind. cbn [log_error snd].
    destruct Hin as [-> | Hin]; [congruence | now apply IH].
Qed.

Lemma kept_in (items : list value) (item processed_item : value) :
  In item items -> process_item item = Ok processed_item ->
  In processed_item (kept items).
Proof.
  intros Hin E. unfold kept. apply in_flat_map. exists item.
  split; [exact Hin|]. rewrite E. now left.
Qed.

(** An item that neither processes into an entry with a key nor is
    skipped ends the whole cycle. *)
Lemma other_item_fails_cycle (d : list (string * value)) (items : list value) :
  py_iter (dict_get d "meterAnalytics" (VList [])) = Ok items ->
  forallb processes_or_skipped items = false ->
  snd (_process_data (VDict d)) = Ok VNone.
Proof.
  intros Hi Hf.
  assert (Hx : exists item, In item items /\ processes_or_skipped item = false).
  { clear Hi. induction items as [| x rest IH]; [discriminate|].
    cbn [forallb] in Hf. apply andb_false_iff in Hf as [Hf | Hf].
    - exists x. split; [now left | exact Hf].
    - destruct (IH Hf) as (item & Hin & H).
      exists item. split; [now right | exact H]. }
  destruct Hx as (item & Hin & Hx). unfold processes_or_skipped in Hx.
  destruct (process_item item) as [p | err] eqn:E.
  - destruct (sort_key p) as [k | err] eqn:Ek; [discriminate|].
    apply (key_raises_fails_cycle d items p err Hi); [|exact Ek].
    now apply (kept_in items item).
  - rewrite process_data_dict, Hi.
    destruct (py_float (dict_get d "totalBillAmount" (VInt 0))); [|reflexivity].
    destruct (py_float (dict_get d "totalDuesAmount" (VInt 0))); [|reflexivity].
    cbn [rbind].
    destruct (process_items_raises items [] item err Hin E Hx) as [err' ->].
    reflexivity.
Qed.

Lemma dict_get_absent (d : list (string * value)) (key : string) (default : value) :
  lookup key d = None -> dict_get d key default = default.
Proof. unfold dict_get. now intros ->. Qed.

Lemma dict_get_present (d : list (string * value)) (key : string) (default v : value) :
  lookup key d = Some v -> dict_get d key default = v.
Proof. unfold dict_get. now intros ->. Qed.

(** [float(0)], the default of an absent numeric field. *)
Lemma py_float_default : py_float (VInt 0) = Ok PyFloat.zero.
Proof. reflexivity. Qed.


(** Reading a field of a [dict] display. *)
Lemma getitem_here (key : string) (v : value) (rest : list (string * value)) :
  py_getitem (VDict ((key, v) :: rest)) key = Ok v.
Proof. cbn [py_getitem lookup]. now rewrite String.eqb_refl. Qed.

Lemma getitem_next (key key' : string) (v : value) (rest : list (string * value)) :
  String.eqb key' key = false ->
  py_getitem (VDict ((key', v) :: rest)) key = py_getitem (VDict rest) key.
Proof. intros H. cbn [py_getitem lookup]. now rewrite H. Qed.

Ltac getitem :=
  repeat (rewrite getitem_here || rewrite getitem_next by reflexivity).

(** A failed cycle has written at least one log line. *)
Lemma update_failed_logged (net : fetch_outcome) :
  failed_cycle net -> fst (_async_update_data net) <> [].
Proof.
  intros H. destruct H as [err | json | status json Hs | err | body err Hb
                          | body payload Hb Ht | body payload Hb Ht Hp].
  - unfold _async_update_data. simpl. destruct (is_client_error err); discriminate.
  - discriminate.
  - unfold _async_update_data.
    destruct (Z.eqb_spec status 200) as [-> | _]; [congruence|].
    destruct (status =? 401); discriminate.
  - unfold _async_update_data. simpl. destruct (is_client_error err); discriminate.
  - unfold _async_update_data. cbn [Z.eqb Pos.eqb]. rewrite bind_lift_ok, Hb.
    simpl. destruct (is_client_error err); discriminate.
  - unfold _async_update_data. cbn [Z.eqb Pos.eqb]. rewrite bind_lift_ok, Hb.
    rewrite bind_lift_ok, Ht. discriminate.
  - unfold _async_update_data. cbn [Z.eqb Pos.eqb]. rewrite bind_lift_ok, Hb.
    rewrite bind_lift_ok, Ht. cbn [negb].
    assert (Hg : py_getitem body "data" = Ok payload).
    { destruct body; try discriminate. cbn in *. unfold dict_get in Hb.
      destruct (lookup "data" d); [exact Hb|].
      injection Hb as <-. discriminate. }
    rewrite Hg, bind_lift_ok.
    destruct (process_data_none_logged payload Hp) as (logs & err & Hl).
    destruct (_process_data payload) as [l r]. cbn [fst snd] in *. subst.
    cbn [try_except]. now destruct logs.
Qed.

(** After a failed cycle the coordinator holds [None]. *)
Lemma refresh_failed (net : fetch_outcome) (c : coordinator) :
  failed_cycle net ->
  snd (_async_refresh net c) = {| data := VNone; last_update_success := true |}.
Proof.
  intros H. apply update_failed in H. unfold _async_refresh.
  destruct (_async_update_data net) as [logs r]. cbn [snd] in *. now subst r.
Qed.

Lemma refresh_logs (net : fetch_outcome) (c : coordinator) :
  fst (_async_refresh net c) = fst (_async_update_data net).
Proof.
  unfold _async_refresh. now destruct (_async_update_data net) as [logs [v | e]].
Qed.

(** The setup never raises: the update routine returns in every case, so
    that the first refresh counts as successful and the [except] clause of
    the setup is not entered. *)
Lemma setup_returns (net : fetch_outcome) :
  exists logs c entities,
    async_setup_entry net = (logs, c, Ok entities)
    /\ logs = fst (_async_update_data net).
Proof.
  unfold async_setup_entry, async_config_entry_first_refresh, _async_refresh.
  destruct (update_none_or_record net) as [H | (record & H & Hrec)];
    destruct (_async_update_data net) as [logs r]; cbn [fst snd] in *; subst r;
    cbn [last_update_success data].
  - cbn. eauto.
  - rewrite (is_record_truthy _ Hrec).
    destruct Hrec as (? & ? & ? & ? & ? & ? & -> & _). cbn. eauto.
Qed.

(** * The properties of the specification *)

(** C1, as the code has it.  The coordinator holds a record after a good
    poll; the next poll meets HTTP 401 and fails; the coordinator then
    holds [None] in place of the record, and the total bill sensor, which
    reported a number, reports [None].  So it is not the case that every
    failed cycle leaves the data of the coordinator as it was. *)
Lemma C1_failed_poll_replaces_record :
  failed_cycle unauthorized_response
  /\ is_record (data ready_coordinator)
  /\ data (snd (_async_refresh unauthorized_response ready_coordinator)) = VNone
  /\ data (snd (_async_refresh unauthorized_response ready_coordinator))
     <> data ready_coordinator
  /\ native_value ElectricityTotalBillSensor ready_coordinator
     = Ok (VFloat (S754_finite false 5500856673763328 (-42)))
  /\ native_value ElectricityTotalBillSensor
       (snd (_async_refresh unauthorized_response ready_coordinator))
     = Ok VNone
  /\ ~ (forall net c,
          failed_cycle net -> data (snd (_async_refresh net c)) = data c).
Proof.
  split; [apply failed_unauthorized|].
  split.
  { eapply process_data_is_record with (data := sample_payload);
      [vm_compute; reflexivity | vm_compute; discriminate]. }
  split; [reflexivity|].
  split; [vm_compute; discriminate|].
  split; [vm_compute; reflexivity|].
  split; [vm_compute; reflexivity|].
  intros H.
  specialize (H unauthorized_response ready_coordinator
                (failed_unauthorized (Raise JSONDecodeError))).
  vm_compute in H. discriminate.
Qed.

(** C1, amended.  For every poll cycle that fails (transport error, HTTP
    401, another status than 200, a body that does not decode or is not an
    object, an empty payload, malformed data), the update routine writes a
    log line and returns [None] without raising; the coordinator then
    holds [None], whatever record it held before, its refresh counts as
    successful, every sensor reports [None] and the monthly attributes are
    the empty dict.  The record of the last good poll is not kept. *)
Theorem C1_failed_cycle_clears_data (net : fetch_outcome) (c : coordinator) :
  failed_cycle net ->
  snd (_async_update_data net) = Ok VNone
  /\ fst (_async_update_data net) <> []
  /\ data (snd (_async_refresh net c)) = VNone
  /\ last_update_success (snd (_async_refresh net c)) = true
  /\ (forall s, native_value s (snd (_async_refresh net c)) = Ok VNone)
  /\ extra_state_attributes (snd (_async_refresh net c)) = Ok (VDict []).
Proof.
  intros H. rewrite (refresh_failed net c H).
  split; [now apply update_failed|].
  split; [now apply update_failed_logged|].
  split; [reflexivity|]. split; [reflexivity|].
  split; [intros []; reflexivity | reflexivity].
Qed.

Lemma C1_failed_cycle_clears_data_witness :
  failed_cycle unauthorized_response
  /\ snd (_async_update_data unauthorized_response) = Ok VNone
  /\ fst (_async_update_data unauthorized_response) <> []
  /\ data (snd (_async_refresh unauthorized_response ready_coordinator)) = VNone
  /\ last_update_success
       (snd (_async_refresh unauthorized_response ready_coordinator)) = true
  /\ (forall s, native_value s
                  (snd (_async_refresh unauthorized_response ready_coordinator))
                = Ok VNone)
  /\ extra_state_attributes
       (snd (_async_refresh unauthorized_response ready_coordinator))
     = Ok (VDict []).
Proof.
  split; [apply failed_unauthorized|].
  apply (C1_failed_cycle_clears_data unauthorized_response ready_coordinator).
  apply failed_unauthorized.
Defined.

(** C2, as the code has it.  HTTP 401 and HTTP 200 with a null [data]
    return the same object, [None]: what is returned does not tell the two
    failures apart. *)
Lemma C2_unauthorized_and_empty_payload_return_alike :
  snd (_async_update_data unauthorized_response) = Ok VNone
  /\ snd (_async_update_data empty_payload_response) = Ok VNone
  /\ snd (_async_update_data unauthorized_response)
     = snd (_async_update_data empty_payload_response).
Proof. repeat split; reflexivity. Qed.

(** C2, amended.  HTTP 401 returns [None] and logs "Authentication failed
    - token might be expired"; HTTP 200 whose body is an object without a
    truthy [data] returns [None] and logs "No data received from API".
    The two outcomes return the same object and differ by their log line
    only; a cycle that succeeds returns a whole record, which is not
    [None]. *)
Theorem C2_failure_kinds_differ_in_log_only
  (json : result value) (body payload : value) (net : fetch_outcome) (record : value) :
  py_get body "data" VNone = Ok payload ->
  truthy payload = false ->
  snd (_async_update_data net) = Ok record ->
  record <> VNone ->
  _async_update_data (FetchResponse 401 json) = ([AuthenticationFailed], Ok VNone)
  /\ _async_update_data (FetchResponse 200 (Ok body)) = ([NoDataReceived], Ok VNone)
  /\ fst (_async_update_data (FetchResponse 401 json))
     <> fst (_async_update_data (FetchResponse 200 (Ok body)))
  /\ snd (_async_update_data (FetchResponse 401 json))
     = snd (_async_update_data (FetchResponse 200 (Ok body)))
  /\ is_record record
  /\ snd (_async_update_data net) <> snd (_async_update_data (FetchResponse 401 json))
  /\ snd (_async_update_data net)
     <> snd (_async_update_data (FetchResponse 200 (Ok body))).
Proof.
  intros Hb Ht Hr Hn.
  assert (H401 : _async_update_data (FetchResponse 401 json)
                 = ([AuthenticationFailed], Ok VNone)) by reflexivity.
  assert (H200 : _async_update_data (FetchResponse 200 (Ok body))
                 = ([NoDataReceived], Ok VNone)).
  { unfold _async_update_data. cbn [Z.eqb Pos.eqb].
    rewrite bind_lift_ok, Hb, bind_lift_ok, Ht. reflexivity. }
  rewrite H401, H200, Hr. cbn [fst snd].
  split; [reflexivity|]. split; [reflexivity|].
  split; [discriminate|]. split; [reflexivity|].
  split.
  - destruct (update_none_or_record net) as [H | (r & H & Hrec)];
      rewrite Hr in H; injection H as ->; [congruence | exact Hrec].
  - split; intros [= ->]; congruence.
Qed.

Lemma C2_failure_kinds_differ_in_log_only_witness :
  py_get (VDict [("data", VList [])]) "data" VNone = Ok (VList [])
  /\ truthy (VList []) = false
  /\ snd (_async_update_data sample_response) = Ok (data ready_coordinator)
  /\ data ready_coordinator <> VNone
  /\ _async_update_data unauthorized_response = ([AuthenticationFailed], Ok VNone)
  /\ _async_update_data (FetchResponse 200 (Ok (VDict [("data", VList [])])))
     = ([NoDataReceived], Ok VNone).
Proof.
  split; [reflexivity|]. split; [reflexivity|].
  split; [vm_compute; reflexivity|]. split; [vm_compute; discriminate|].
  pose proof (C2_failure_kinds_differ_in_log_only
                (Raise JSONDecodeError) (VDict [("data", VList [])]) (VList [])
                sample_response (data ready_coordinator)) as H.
  destruct H as (H401 & H200 & _).
  - reflexivity.
  - reflexivity.
  - vm_compute. reflexivity.
  - vm_compute. discriminate.
  - split; [exact H401 | exact H200].
Defined.

(** C3, as the code has it.  The first poll at startup meets a transport
    error: the setup routine returns without raising, with the log line of
    the update routine only, no entity, and a coordinator that holds
    [None].  And a poll that fails after a good first poll does not keep
    the record.  So it is not the case that every failed first poll makes
    the setup raise. *)
Lemma C3_first_poll_failure_not_raised :
  failed_cycle transport_failure
  /\ async_setup_entry transport_failure
     = ([ErrorFetching ClientError],
        {| data := VNone; last_update_success := true |},
        Ok [])
  /\ data (snd (_async_refresh transport_failure ready_coordinator))
     <> data ready_coordinator
  /\ ~ (forall net,
          failed_cycle net ->
          exists err, snd (async_setup_entry net) = Raise err).
Proof.
  split; [apply failed_transport|]. split; [reflexivity|].
  split; [vm_compute; discriminate|].
  intros H.
  destruct (H transport_failure (failed_transport ClientError)) as [err Herr].
  discriminate.
Qed.

(** C3, amended.  No poll failure is raised, at the first poll or at a
    later one: the update routine writes its log line and returns [None].
    When the first poll at startup fails, the setup routine returns
    without raising, with the log of the update routine and nothing added
    to it, no entity, and a coordinator that holds [None].  When a later
    poll fails, nothing is raised either, and the coordinator holds [None]
    in place of the last good record.  Whatever the first poll meets, the
    setup routine returns without raising. *)
Theorem C3_poll_failures_never_raise :
  (forall net c,
      failed_cycle net ->
      (exists logs, _async_update_data net = (logs, Ok VNone) /\ logs <> [])
      /\ async_setup_entry net
         = (fst (_async_update_data net),
            {| data := VNone; last_update_success := true |},
            Ok [])
      /\ _async_refresh net c
         = (fst (_async_update_data net),
            {| data := VNone; last_update_success := true |}))
  /\ (forall net,
         exists logs c entities,
           async_setup_entry net = (logs, c, Ok entities)
           /\ logs = fst (_async_update_data net)).
Proof.
  split; [|exact setup_returns].
  intros net c H.
  pose proof (update_failed net H) as Hs.
  pose proof (update_failed_logged net H) as Hl.
  split.
  { destruct (_async_update_data net) as [logs r]. cbn [fst snd] in *. subst r.
    now exists logs. }
  split.
  - unfold async_setup_entry, async_config_entry_first_refresh, _async_refresh.
    destruct (_async_update_data net) as [logs r]. cbn [fst snd] in *. now subst r.
  - unfold _async_refresh.
    destruct (_async_update_data net) as [logs r]. cbn [fst snd] in *. now subst r.
Qed.

Lemma C3_poll_failures_never_raise_witness :
  failed_cycle transport_failure
  /\ (exists logs, _async_update_data transport_failure = (logs, Ok VNone)
                   /\ logs <> [])
  /\ async_setup_entry transport_failure
     = (fst (_async_update_data transport_failure),
        {| data := VNone; last_update_success := true |},
        Ok [])
  /\ _async_refresh transport_failure ready_coordinator
     = (fst (_async_update_data transport_failure),
        {| data := VNone; last_update_success := true |}).
Proof.
  split; [apply failed_transport|].
  apply (proj1 C3_poll_failures_never_raise transport_failure ready_coordinator).
  apply failed_transport.
Defined.

(** C4.  When the normalisation returns a record, its [meter_analytics] is
    the list of the processed entries put in ascending order of the pair
    (integer after the slash, place of the month name in the calendar
    Baisakh .. Chaitra): every key is computed, the list is in order, it
    is a permutation of the processed entries, and the entries of one key
    keep their relative order.  An entry whose month has no slash has the
    key (0, 0).  The months Chaitra/80, Baisakh/81, Poush/80 come out as
    Poush/80, Chaitra/80, Baisakh/81. *)
Theorem C4_meter_analytics_sorted :
  (forall data record,
      snd (_process_data data) = Ok record -> record <> VNone ->
      exists d items meter_analytics,
        data = VDict d
        /\ py_iter (dict_get d "meterAnalytics" (VList [])) = Ok items
        /\ py_getitem record "meter_analytics" = Ok (VList meter_analytics)
        /\ Forall (fun x => exists k, sort_key x = Ok k) meter_analytics
        /\ StronglySorted key_le meter_analytics
        /\ Permutation (kept items) meter_analytics
        /\ (forall k, filter (has_key k) meter_analytics
                      = filter (has_key k) (kept items)))
  /\ (forall x s,
         py_getitem x "month" = Ok (VStr s) ->
         PyStr.contains "/" s = false ->
         sort_key x = Ok (0, 0))
  /\ (forall x s name suffix rest,
         py_getitem x "month" = Ok (VStr s) ->
         PyStr.split "/" s = name :: suffix :: rest ->
         sort_key x = (let? year := py_int suffix in
                       let? index := list_index NEPALI_MONTHS_ORDER name in
                       Ok (year, index)))
  /\ (let? record := snd (_process_data sample_payload) in months_of record)
     = Ok [VStr "Poush/80"; VStr "Chaitra/80"; VStr "Baisakh/81"].
Proof.
  split; [|split; [|split]].
  - intros data record H Hn.
    destruct (process_data_record _ _ H Hn)
      as (d & tb & td & items & out & -> & _ & _ & Hi & _ & Hs & ->).
    apply sorted_or_empty_entries in Hs. destruct Hs as (Hk & Ho & Hp & Hf).
    exists d, items, out. repeat (split; [reflexivity || assumption|]).
    exact Hf.
  - exact sort_key_without_slash.
  - exact sort_key_with_slash.
  - vm_compute. reflexivity.
Qed.

Lemma C4_meter_analytics_sorted_witness :
  snd (_process_data sample_payload)
  = Ok (data ready_coordinator)
  /\ data ready_coordinator <> VNone
  /\ exists d items meter_analytics,
       sample_payload = VDict d
       /\ py_iter (dict_get d "meterAnalytics" (VList [])) = Ok items
       /\ py_getitem (data ready_coordinator) "meter_analytics"
          = Ok (VList meter_analytics)
       /\ Forall (fun x => exists k, sort_key x = Ok k) meter_analytics
       /\ StronglySorted key_le meter_analytics
       /\ Permutation (kept items) meter_analytics
       /\ (forall k, filter (has_key k) meter_analytics
                     = filter (has_key k) (kept items)).
Proof.
  split; [vm_compute; reflexivity|].
  split; [vm_compute; discriminate|].
  apply (proj1 C4_meter_analytics_sorted sample_payload (data ready_coordinator)).
  - vm_compute. reflexivity.
  - vm_compute. discriminate.
Defined.

(** C5, as the code has it.  A list of raw items with an item that
    parses and an item that the loop skips gives a record.  With one more
    item that is not an object ([null]), or whose [consumedUnits] is an
    integer too large for a float, the loop is left by [AttributeError]
    or by [OverflowError], which the inner handler does not catch: the
    normalisation returns [None] for the whole cycle, and the entry of
    the item that parses is lost with it. *)
Lemma C5_other_exception_fails_cycle :
  skipped malformed_bill_entry = true
  /\ process_item VNone = Raise AttributeError
  /\ process_item huge_units_entry = Raise OverflowError
  /\ snd (_process_data
            (sample_payload_of [sample_entry "Poush/80"; malformed_bill_entry]))
     = Ok (VDict
             [ ("meter_name", VStr "Meter-1"); ("consumer_id", VStr "C-42");
               ("sc_num", VStr "SC-7");
               ("total_bill_amount",
                VFloat (S754_finite false 5500856673763328 (-42)));
               ("total_dues_amount",
                VFloat (S754_finite false 5277655813324800 (-44)));
               ("meter_analytics",
                VList
                  [ VDict
                      [ ("month", VStr "Poush/80"); ("status", VStr "PAID");
                        ("consumed_units",
                         VFloat (S754_finite false 8444249301319680 (-46)));
                        ("bill_amount",
                         VFloat (S754_finite false 8360686417608704 (-43)));
                        ("payable_amount",
                         VFloat (S754_finite false 7916483719987200 (-43)));
                        ("rebate_amount",
                         VFloat (S754_finite false 7107243161944064 (-47))) ] ]) ])
  /\ snd (_process_data (sample_payload_of items_with_null)) = Ok VNone
  /\ snd (_process_data (sample_payload_of items_with_huge_units)) = Ok VNone.
Proof. repeat split; vm_compute; reflexivity. Qed.

(** C5, amended.  A raw item whose processing raises [ValueError] or
    [TypeError] counts for nothing in the outcome: the loop ends as it
    would without the item, and so does the cycle, which returns what it
    returns for the payload without the item.  When the totals of the
    payload parse and every raw item either processes into an entry whose
    key can be computed or is such a skipped item, the cycle succeeds:
    the record is returned, its [meter_analytics] holds the processed
    entries of all the items that are not skipped, one for each, and none
    for a skipped item.  And when some raw item is neither, the cycle
    does not succeed: the normalisation returns [None]. *)
Theorem C5_malformed_entries_dropped :
  (forall items acc,
      snd (process_items items acc)
      = snd (process_items (filter (fun item => negb (skipped item)) items) acc))
  /\ (forall d d' items,
         (forall key, key <> "meterAnalytics" -> lookup key d' = lookup key d) ->
         lookup "meterAnalytics" d = Some (VList items) ->
         lookup "meterAnalytics" d'
         = Some (VList (filter (fun item => negb (skipped item)) items)) ->
         snd (_process_data (VDict d')) = snd (_process_data (VDict d)))
  /\ (forall d items total_bill_amount total_dues_amount,
         py_float (dict_get d "totalBillAmount" (VInt 0)) = Ok total_bill_amount ->
         py_float (dict_get d "totalDuesAmount" (VInt 0)) = Ok total_dues_amount ->
         py_iter (dict_get d "meterAnalytics" (VList [])) = Ok items ->
         forallb processes_or_skipped items = true ->
         exists meter_analytics,
           snd (_process_data (VDict d))
           = Ok (VDict [ ("meter_name", dict_get d "meterName" (VStr "Unknown"));
                         ("consumer_id", dict_get d "consumerId" (VStr "Unknown"));
                         ("sc_num", dict_get d "scNum" (VStr "Unknown"));
                         ("total_bill_amount", VFloat total_bill_amount);
                         ("total_dues_amount", VFloat total_dues_amount);
                         ("meter_analytics", VList meter_analytics) ])
           /\ Permutation
                (kept (filter (fun item => negb (skipped item)) items))
                meter_analytics
           /\ List.length meter_analytics
              = List.length (filter (fun item => negb (skipped item)) items))
  /\ (forall d items,
         py_iter (dict_get d "meterAnalytics" (VList [])) = Ok items ->
         forallb processes_or_skipped items = false ->
         snd (_process_data (VDict d)) = Ok VNone).
Proof.
  split; [exact process_items_without_skipped|].
  split; [exact process_data_without_skipped|].
  split; [|exact other_item_fails_cycle].
  intros d items tb td Hb Hd Hi H.
  destruct (processes_or_skipped_total items H) as (Hl & Hk & Hn).
  assert (Hs : exists out,
             (if truthy (VList (kept items))
              then list_sort sort_key (kept items)
              else Ok (kept items)) = Ok out).
  { destruct (truthy (VList (kept items))); [|eauto].
    now apply list_sort_total. }
  destruct Hs as [out Hs]. exists out.
  rewrite process_data_dict, Hb, Hd, Hi. cbn [rbind].
  rewrite Hl. cbn [rbind]. rewrite Hs. cbn [rbind].
  split; [reflexivity|].
  apply sorted_or_empty_entries in Hs. destruct Hs as (_ & _ & Hp & _).
  split.
  - now rewrite kept_without_skipped.
  - rewrite <- Hn. symmetry. now apply Permutation_length.
Qed.

Lemma C5_malformed_entries_dropped_witness :
  (py_float (dict_get mixed_payload "totalBillAmount" (VInt 0))
   = Ok (S754_finite false 5500856673763328 (-42))
   /\ py_float (dict_get mixed_payload "totalDuesAmount" (VInt 0)) = Ok PyFloat.zero
   /\ py_iter (dict_get mixed_payload "meterAnalytics" (VList [])) = Ok mixed_items
   /\ forallb processes_or_skipped mixed_items = true
   /\ exists meter_analytics,
        snd (_process_data (VDict mixed_payload))
        = Ok (VDict [ ("meter_name", dict_get mixed_payload "meterName" (VStr "Unknown"));
                      ("consumer_id", dict_get mixed_payload "consumerId" (VStr "Unknown"));
                      ("sc_num", dict_get mixed_payload "scNum" (VStr "Unknown"));
                      ("total_bill_amount",
                       VFloat (S754_finite false 5500856673763328 (-42)));
                      ("total_dues_amount", VFloat PyFloat.zero);
                      ("meter_analytics", VList meter_analytics) ])
        /\ Permutation
             (kept (filter (fun item => negb (skipped item)) mixed_items))
             meter_analytics
        /\ List.length meter_analytics
           = List.length (filter (fun item => negb (skipped item)) mixed_items))
  /\ (py_iter (dict_get (payload_with_analytics (VList items_with_null))
                 "meterAnalytics" (VList []))
      = Ok items_with_null
      /\ forallb processes_or_skipped items_with_null = false
      /\ snd (_process_data (VDict (payload_with_analytics (VList items_with_null))))
         = Ok VNone).
Proof.
  split.
  - do 4 (split; [vm_compute; reflexivity|]).
    apply (proj1 (proj2 (proj2 C5_malformed_entries_dropped))
             mixed_payload mixed_items).
    + vm_compute. reflexivity.
    + vm_compute. reflexivity.
    + vm_compute. reflexivity.
    + vm_compute. reflexivity.
  - split; [reflexivity|]. split; [vm_compute; reflexivity|].
    apply (proj2 (proj2 (proj2 C5_malformed_entries_dropped))
             (payload_with_analytics (VList items_with_null)) items_with_null).
    + reflexivity.
    + vm_compute. reflexivity.
Defined.

(** C6, as the code has it.  A total that is present and that [float]
    does not take is not replaced by 0: the normalisation returns [None]
    for the whole cycle. *)
Lemma C6_unparseable_total_fails_cycle :
  _process_data (VDict [("meterName", VStr "Meter-1");
                        ("totalBillAmount", VStr "n/a")])
  = ([ErrorProcessingData ValueError], Ok VNone)
  /\ _process_data (VDict [("totalDuesAmount", VNone)])
     = ([ErrorProcessingData TypeError], Ok VNone).
Proof. split; reflexivity. Qed.

(** C6, amended.  In the record that the normalisation returns,
    [meter_name], [consumer_id] and [sc_num] are the raw fields, and
    "Unknown" when the key is absent; [total_bill_amount] and
    [total_dues_amount] are [0.0] when the key is absent and the [float]
    of the raw field when it is present.  A total that is present and
    that [float] does not take gives no record: the normalisation returns
    [None] for the cycle.  A payload without any of these keys gives the
    record of the defaults. *)
Theorem C6_top_level_defaults (d : list (string * value)) :
  (forall record,
      snd (_process_data (VDict d)) = Ok record -> record <> VNone ->
      py_getitem record "meter_name" = Ok (dict_get d "meterName" (VStr "Unknown"))
      /\ py_getitem record "consumer_id" = Ok (dict_get d "consumerId" (VStr "Unknown"))
      /\ py_getitem record "sc_num" = Ok (dict_get d "scNum" (VStr "Unknown"))
      /\ (lookup "meterName" d = None -> py_getitem record "meter_name" = Ok (VStr "Unknown"))
      /\ (lookup "consumerId" d = None -> py_getitem record "consumer_id" = Ok (VStr "Unknown"))
      /\ (lookup "scNum" d = None -> py_getitem record "sc_num" = Ok (VStr "Unknown"))
      /\ (lookup "totalBillAmount" d = None ->
          py_getitem record "total_bill_amount" = Ok (VFloat PyFloat.zero))
      /\ (lookup "totalDuesAmount" d = None ->
          py_getitem record "total_dues_amount" = Ok (VFloat PyFloat.zero))
      /\ (forall v, lookup "totalBillAmount" d = Some v ->
                    exists f, py_float v = Ok f
                              /\ py_getitem record "total_bill_amount" = Ok (VFloat f))
      /\ (forall v, lookup "totalDuesAmount" d = Some v ->
                    exists f, py_float v = Ok f
                              /\ py_getitem record "total_dues_amount" = Ok (VFloat f)))
  /\ (forall key v err,
         key = "totalBillAmount" \/ key = "totalDuesAmount" ->
         lookup key d = Some v ->
         py_float v = Raise err ->
         snd (_process_data (VDict d)) = Ok VNone)
  /\ _process_data (VDict [])
     = ([], Ok (VDict [ ("meter_name", VStr "Unknown");
                        ("consumer_id", VStr "Unknown");
                        ("sc_num", VStr "Unknown");
                        ("total_bill_amount", VFloat PyFloat.zero);
                        ("total_dues_amount", VFloat PyFloat.zero);
                        ("meter_analytics", VList []) ])).
Proof.
  split; [|split; [|reflexivity]].
  - intros record H Hn.
    destruct (process_data_record _ _ H Hn)
      as (d' & tb & td & items & out & [= <-] & Hb & Hd & _ & _ & _ & ->).
    getitem.
    split; [reflexivity|]. split; [reflexivity|]. split; [reflexivity|].
    split; [intros Hl; now rewrite (dict_get_absent _ _ _ Hl)|].
    split; [intros Hl; now rewrite (dict_get_absent _ _ _ Hl)|].
    split; [intros Hl; now rewrite (dict_get_absent _ _ _ Hl)|].
    split.
    { intros Hl. rewrite (dict_get_absent _ _ _ Hl), py_float_default in Hb.
      congruence. }
    split.
    { intros Hl. rewrite (dict_get_absent _ _ _ Hl), py_float_default in Hd.
      congruence. }
    split.
    + intros v Hl. rewrite (dict_get_present _ _ _ _ Hl) in Hb. now exists tb.
    + intros v Hl. rewrite (dict_get_present _ _ _ _ Hl) in Hd. now exists td.
  - intros key v err Hkey Hl Hv. rewrite process_data_dict.
    destruct Hkey as [-> | ->]; rewrite (dict_get_present _ _ _ _ Hl), Hv.
    + reflexivity.
    + now destruct (py_float (dict_get d "totalBillAmount" (VInt 0))).
Qed.

Lemma C6_top_level_defaults_witness :
  snd (_process_data (VDict [("meterName", VStr "Meter-1");
                             ("totalDuesAmount", VStr "12.5")]))
  = Ok (VDict [ ("meter_name", VStr "Meter-1");
                ("consumer_id", VStr "Unknown");
                ("sc_num", VStr "Unknown");
                ("total_bill_amount", VFloat PyFloat.zero);
                ("total_dues_amount",
                 VFloat (S754_finite false 7036874417766400 (-49)));
                ("meter_analytics", VList []) ])
  /\ py_getitem (VDict [ ("meter_name", VStr "Meter-1");
                         ("consumer_id", VStr "Unknown");
                         ("sc_num", VStr "Unknown");
                         ("total_bill_amount", VFloat PyFloat.zero);
                         ("total_dues_amount",
                          VFloat (S754_finite false 7036874417766400 (-49)));
                         ("meter_analytics", VList []) ]) "consumer_id"
     = Ok (VStr "Unknown").
Proof.
  split; [vm_compute; reflexivity|].
  refine (proj1 (proj2 (proj1 (C6_top_level_defaults
                                 [("meterName", VStr "Meter-1");
                                  ("totalDuesAmount", VStr "12.5")])
                              _ _ _))).
  - vm_compute. reflexivity.
  - discriminate.
Defined.

(** C7.  What the update routine returns, for every outcome of the
    request, is [None] or a whole record: a [dict] with the six keys
    [meter_name], [consumer_id], [sc_num], [total_bill_amount],
    [total_dues_amount], [meter_analytics], the two totals floats and
    [meter_analytics] a list of entries of six keys each.  The same holds
    for what [_process_data] returns for every payload, and for the data
    of the coordinator after any run of polls. *)
Theorem C7_record_whole_or_none :
  (forall net,
      snd (_async_update_data net) = Ok VNone
      \/ exists record,
           snd (_async_update_data net) = Ok record /\ is_record record)
  /\ (forall payload,
         snd (_process_data payload) = Ok VNone
         \/ exists record,
              snd (_process_data payload) = Ok record /\ is_record record)
  /\ (forall nets,
         data (run_ticks nets new_coordinator) = VNone
         \/ is_record (data (run_ticks nets new_coordinator))).
Proof.
  split; [exact update_none_or_record|]. split.
  - intros payload. destruct (process_data_returns payload) as [v Hv].
    destruct v; try (right; eexists; split; [exact Hv|];
                     eapply process_data_is_record; [exact Hv | discriminate]).
    now left.
  - intros nets.
    assert (H : forall c, data c = VNone \/ is_record (data c) ->
                          data (run_ticks nets c) = VNone
                          \/ is_record (data (run_ticks nets c))).
    { induction nets as [| net rest IH]; intros c Hc; [exact Hc|].
      cbn [run_ticks]. apply IH. unfold _async_refresh.
      destruct (update_none_or_record net) as [Hn | (record & Hr & Hrec)];
        destruct (_async_update_data net) as [logs r]; cbn [snd] in *; subst r;
        cbn [snd data]; auto. }
    apply H. now left.
Qed.

(** C8.  The record of a poll is decided by the response alone: two
    polls that meet the same response give the same log and equal data,
    whatever the coordinator held before, so that a second poll with the
    same response leaves the data of the first.  The order of
    [meter_analytics] is decided by its entries alone: any list in
    ascending order of the keys that holds the entries of each key in the
    order of the record is the list of the record. *)
Theorem C8_normalisation_deterministic :
  (forall net c c',
      _async_refresh net c = _async_refresh net c'
      /\ data (snd (_async_refresh net (snd (_async_refresh net c))))
         = data (snd (_async_refresh net c))
      /\ run_ticks [net; net] c = run_ticks [net] c')
  /\ (forall payload record meter_analytics other,
         snd (_process_data payload) = Ok record ->
         py_getitem record "meter_analytics" = Ok (VList meter_analytics) ->
         StronglySorted key_le other ->
         (forall k, filter (has_key k) other = filter (has_key k) meter_analytics) ->
         other = meter_analytics).
Proof.
  split.
  - intros net c c'.
    assert (H : forall a b, _async_refresh net a = _async_refresh net b).
    { intros a b. unfold _async_refresh.
      destruct (update_returns net) as [v Hv].
      destruct (_async_update_data net) as [logs r]. cbn [snd] in Hv. now subst r. }
    split; [apply H|]. split.
    + now rewrite (H (snd (_async_refresh net c)) c).
    + cbn [run_ticks]. now rewrite (H (snd (_async_refresh net c)) c').
  - intros payload record out other Hr Hm Hs Hf.
    assert (Hn : record <> VNone) by (intros ->; discriminate).
    destruct (process_data_record _ _ Hr Hn)
      as (d & tb & td & items & out' & _ & _ & _ & _ & _ & Hsort & ->).
    getitem. injection Hm as <-.
    apply sorted_or_empty_entries in Hsort. destruct Hsort as (_ & Ho & _ & _).
    now apply (stable_sort_unique key_of).
Qed.

Lemma C8_normalisation_deterministic_witness :
  snd (_process_data sample_payload) = Ok (data ready_coordinator)
  /\ py_getitem (data ready_coordinator) "meter_analytics"
     = Ok (VList (kept (map sample_entry ["Poush/80"; "Chaitra/80"; "Baisakh/81"])))
  /\ StronglySorted key_le
       (kept (map sample_entry ["Poush/80"; "Chaitra/80"; "Baisakh/81"]))
  /\ kept (map sample_entry ["Poush/80"; "Chaitra/80"; "Baisakh/81"])
     = kept (map sample_entry ["Poush/80"; "Chaitra/80"; "Baisakh/81"]).
Proof.
  assert (Hs : StronglySorted key_le
                 (kept (map sample_entry ["Poush/80"; "Chaitra/80"; "Baisakh/81"]))).
  { vm_compute.
    repeat first [ apply SSorted_nil | apply SSorted_cons
                 | apply Forall_nil | apply Forall_cons ];
      vm_compute;
      first [left; reflexivity | right; split; [reflexivity | discriminate]]. }
  split; [vm_compute; reflexivity|]. split; [vm_compute; reflexivity|].
  split; [exact Hs|].
  apply (proj2 C8_normalisation_deterministic
           sample_payload (data ready_coordinator)
           (kept (map sample_entry ["Poush/80"; "Chaitra/80"; "Baisakh/81"]))
           (kept (map sample_entry ["Poush/80"; "Chaitra/80"; "Baisakh/81"]))).
  - vm_compute. reflexivity.
  - vm_compute. reflexivity.
  - exact Hs.
  - reflexivity.
Defined.

(** C9.  There are payloads in which every numeric field parses, so that
    every raw item processes, and in which one month has the slash with
    a name outside the calendar, or with a suffix that is not an integer:
    the key of that entry raises [ValueError], the outer handler logs it,
    and the normalisation returns [None] for the cycle, while the same
    payload without that item gives a record. *)
Theorem C9_bad_month_fails_cycle :
  exists payload_name payload_year items_name items_year,
    payload_name = sample_payload_of items_name
    /\ payload_year = sample_payload_of items_year
    /\ items_name = [sample_entry "Poush/80"; sample_entry "Asar/80"]
    /\ items_year = [sample_entry "Poush/80"; sample_entry "Baisakh/8x"]
    /\ List.length (kept items_name) = 2%nat
    /\ List.length (kept items_year) = 2%nat
    /\ map sort_key (kept items_name) = [Ok (80, 8); Raise ValueError]
    /\ map sort_key (kept items_year) = [Ok (80, 8); Raise ValueError]
    /\ list_index NEPALI_MONTHS_ORDER "Asar" = Raise ValueError
    /\ py_int "8x" = Raise ValueError
    /\ _process_data payload_name = ([ErrorProcessingData ValueError], Ok VNone)
    /\ _process_data payload_year = ([ErrorProcessingData ValueError], Ok VNone)
    /\ (let? record := snd (_process_data (sample_payload_of [sample_entry "Poush/80"]))
        in months_of record) = Ok [VStr "Poush/80"].
Proof.
  do 4 eexists.
  do 4 (split; [reflexivity|]).
  repeat split; vm_compute; reflexivity.
Qed.



(** * Further properties of the code *)

(** ** What the coordinator holds *)

Lemma update_produced (net : fetch_outcome) :
  exists v, snd (_async_update_data net) = Ok v /\ produced v.
Proof.
  destruct net as [err | status json].
  { exists VNone. split; [apply update_failed, failed_transport | now left]. }
  destruct (Z.eqb_spec status 200) as [-> | Hs].
  2:{ exists VNone. split; [now apply update_failed, failed_status | now left]. }
  destruct json as [body | err].
  2:{ exists VNone. split; [apply update_failed, failed_body | now left]. }
  rewrite update_200.
  destruct (py_get body "data" VNone) as [payload | e];
    [|exists VNone; split; [reflexivity | now left]].
  destruct (truthy payload); [|exists VNone; split; [reflexivity | now left]].
  destruct (process_data_returns payload) as [v Hv]. exists v.
  split; [exact Hv|].
  destruct v; try (right; exists payload; split; [exact Hv | discriminate]).
  now left.
Qed.

Lemma refresh_data (net : fetch_outcome) (c : coordinator) :
  snd (_async_update_data net) = Ok (data (snd (_async_refresh net c))).
Proof.
  unfold _async_refresh. destruct (update_returns net) as [v Hv].
  destruct (_async_update_data net) as [logs r]. cbn [snd] in *. now subst r.
Qed.

Lemma run_ticks_produced (nets : list fetch_outcome) (c : coordinator) :
  produced (data c) -> produced (data (run_ticks nets c)).
Proof.
  revert c. induction nets as [| net rest IH]; intros c Hc; [exact Hc|].
  cbn [run_ticks]. apply IH.
  destruct (update_produced net) as (v & Hv & Hp).
  pose proof (refresh_data net c) as Hd. rewrite Hv in Hd.
  injection Hd as <-. exact Hp.
Qed.

(** Every entry of a record has its rebate computed from its amounts. *)
Lemma process_item_rebate (item processed_item : value) :
  process_item item = Ok processed_item -> rebate_is_difference processed_item.
Proof.
  destruct item; try discriminate.
  rewrite process_item_dict.
  destruct (py_float (dict_get d "consumedUnits" (VInt 0))); simpl; [|discriminate].
  destruct (py_float (dict_get d "billAmt" (VInt 0))); simpl; [|discriminate].
  destruct (py_float (dict_get d "payableAmount" (VInt 0))); simpl; [|discriminate].
  intros [= <-]. unfold rebate_is_difference. eauto 10.
Qed.

Lemma kept_rebate (items : list value) : Forall rebate_is_difference (kept items).
Proof.
  induction items as [| item rest IH]; [constructor|].
  unfold kept in *. cbn [flat_map].
  destruct (process_item item) eqn:E; cbn [app]; [|exact IH].
  constructor; [now apply process_item_rebate in E | exact IH].
Qed.

(** A record that was produced, laid out. *)
Lemma produced_record (v : value) :
  produced v -> v <> VNone ->
  exists meter_name consumer_id sc_num total_bill_amount total_dues_amount
         meter_analytics,
    v = VDict [ ("meter_name", meter_name);
                ("consumer_id", consumer_id);
                ("sc_num", sc_num);
                ("total_bill_amount", VFloat total_bill_amount);
                ("total_dues_amount", VFloat total_dues_amount);
                ("meter_analytics", VList meter_analytics) ]
    /\ Forall rebate_is_difference meter_analytics
    /\ StronglySorted key_le meter_analytics.
Proof.
  intros [-> | (payload & Hp & _)] Hn; [congruence|].
  destruct (process_data_record _ _ Hp Hn)
    as (d & tb & td & items & out & _ & _ & _ & _ & _ & Hs & ->).
  apply sorted_or_empty_entries in Hs. destruct Hs as (_ & Ho & Hperm & _).
  do 6 eexists. split; [reflexivity|]. split; [|exact Ho].
  eapply Permutation_Forall; [exact Hperm | apply kept_rebate].
Qed.

(** The values of the sensors on a record. *)
Lemma native_value_record
  (c : coordinator) (meter_name consumer_id sc_num : value)
  (total_bill_amount total_dues_amount : spec_float) (meter_analytics : list value) :
  data c = VDict [ ("meter_name", meter_name);
                   ("consumer_id", consumer_id);
                   ("sc_num", sc_num);
                   ("total_bill_amount", VFloat total_bill_amount);
                   ("total_dues_amount", VFloat total_dues_amount);
                   ("meter_analytics", VList meter_analytics) ] ->
  native_value ElectricityTotalBillSensor c = Ok (VFloat total_bill_amount)
  /\ native_value ElectricityTotalDuesSensor c = Ok (VFloat total_dues_amount)
  /\ native_value ElectricityMeterNameSensor c = Ok meter_name
  /\ native_value ElectricityConsumerIDSensor c = Ok consumer_id
  /\ native_value ElectricityScNumSensor c = Ok sc_num
  /\ native_value ElectricityMonthlyDataSensor c
     = match meter_analytics with
       | [] => Ok VNone
       | first :: _ => py_getitem first "consumed_units"
       end
  /\ extra_state_attributes c = Ok (VDict [("monthly_data", VList meter_analytics)]).
Proof.
  intros H. unfold native_value, extra_state_attributes. rewrite H.
  repeat split; try reflexivity.
  now destruct meter_analytics.
Qed.

Lemma ticks_produced (nets : list fetch_outcome) :
  produced (data (run_ticks nets new_coordinator)).
Proof. apply run_ticks_produced. now left. Qed.

Lemma ticks_none_or_record (nets : list fetch_outcome) :
  data (run_ticks nets new_coordinator) = VNone
  \/ exists meter_name consumer_id sc_num total_bill_amount total_dues_amount
            meter_analytics,
       data (run_ticks nets new_coordinator)
       = VDict [ ("meter_name", meter_name);
                 ("consumer_id", consumer_id);
                 ("sc_num", sc_num);
                 ("total_bill_amount", VFloat total_bill_amount);
                 ("total_dues_amount", VFloat total_dues_amount);
                 ("meter_analytics", VList meter_analytics) ]
       /\ Forall rebate_is_difference meter_analytics
       /\ StronglySorted key_le meter_analytics.
Proof.
  pose proof (ticks_produced nets) as Hp.
  destruct Hp as [H | (payload & Hpay & Hn)]; [now left|].
  right. apply produced_record; [|exact Hn]. right. now exists payload.
Qed.

Lemma rebate_entry_units (x : value) :
  rebate_is_difference x ->
  exists f, py_getitem x "consumed_units" = Ok (VFloat f).
Proof. intros (? & ? & cu & ? & ? & ->). now exists cu. Qed.

(** ** The published values *)

(** X1.  After a poll that meets HTTP 200 with a body whose [data] is a
    non-empty object that normalises, the coordinator holds the record
    and the sensors report the raw fields: the two amounts are the
    [float] of [totalBillAmount] and [totalDuesAmount] (of 0 when the key
    is absent), and the meter name, consumer id and SC number are the raw
    values, or "Unknown" when the key is absent. *)
Theorem X1_published_values
  (body : value) (d : list (string * value)) (record : value) (c : coordinator) :
  py_get body "data" VNone = Ok (VDict d) ->
  truthy (VDict d) = true ->
  snd (_process_data (VDict d)) = Ok record ->
  record <> VNone ->
  exists total_bill_amount total_dues_amount,
    py_float (dict_get d "totalBillAmount" (VInt 0)) = Ok total_bill_amount
    /\ py_float (dict_get d "totalDuesAmount" (VInt 0)) = Ok total_dues_amount
    /\ data (snd (_async_refresh (FetchResponse 200 (Ok body)) c)) = record
    /\ native_value ElectricityTotalBillSensor
         (snd (_async_refresh (FetchResponse 200 (Ok body)) c))
       = Ok (VFloat total_bill_amount)
    /\ native_value ElectricityTotalDuesSensor
         (snd (_async_refresh (FetchResponse 200 (Ok body)) c))
       = Ok (VFloat total_dues_amount)
    /\ native_value ElectricityMeterNameSensor
         (snd (_async_refresh (FetchResponse 200 (Ok body)) c))
       = Ok (dict_get d "meterName" (VStr "Unknown"))
    /\ native_value ElectricityConsumerIDSensor
         (snd (_async_refresh (FetchResponse 200 (Ok body)) c))
       = Ok (dict_get d "consumerId" (VStr "Unknown"))
    /\ native_value ElectricityScNumSensor
         (snd (_async_refresh (FetchResponse 200 (Ok body)) c))
       = Ok (dict_get d "scNum" (VStr "Unknown")).
Proof.
  intros Hb Ht Hr Hn.
  pose proof (refresh_data (FetchResponse 200 (Ok body)) c) as Hd.
  rewrite update_200, Hb, Ht, Hr in Hd. injection Hd as Hd.
  destruct (process_data_record _ _ Hr Hn)
    as (d' & tb & td & items & out & [= <-] & Htb & Htd & _ & _ & _ & Hrec).
  exists tb, td. split; [exact Htb|]. split; [exact Htd|].
  split; [now symmetry|].
  rewrite Hrec in Hd. symmetry in Hd.
  destruct (native_value_record _ _ _ _ _ _ _ Hd) as (H1 & H2 & H3 & H4 & H5 & _).
  now repeat split.
Qed.

Lemma X1_published_values_witness :
  py_get sample_body "data" VNone = Ok (VDict sample_dict)
  /\ truthy (VDict sample_dict) = true
  /\ snd (_process_data (VDict sample_dict)) = Ok (data ready_coordinator)
  /\ data ready_coordinator <> VNone
  /\ exists total_bill_amount total_dues_amount,
       py_float (dict_get sample_dict "totalBillAmount" (VInt 0)) = Ok total_bill_amount
       /\ py_float (dict_get sample_dict "totalDuesAmount" (VInt 0)) = Ok total_dues_amount
       /\ data (snd (_async_refresh (FetchResponse 200 (Ok sample_body)) new_coordinator))
          = data ready_coordinator
       /\ native_value ElectricityTotalBillSensor
            (snd (_async_refresh (FetchResponse 200 (Ok sample_body)) new_coordinator))
          = Ok (VFloat total_bill_amount)
       /\ native_value ElectricityTotalDuesSensor
            (snd (_async_refresh (FetchResponse 200 (Ok sample_body)) new_coordinator))
          = Ok (VFloat total_dues_amount)
       /\ native_value ElectricityMeterNameSensor
            (snd (_async_refresh (FetchResponse 200 (Ok sample_body)) new_coordinator))
          = Ok (dict_get sample_dict "meterName" (VStr "Unknown"))
       /\ native_value ElectricityConsumerIDSensor
            (snd (_async_refresh (FetchResponse 200 (Ok sample_body)) new_coordinator))
          = Ok (dict_get sample_dict "consumerId" (VStr "Unknown"))
       /\ native_value ElectricityScNumSensor
            (snd (_async_refresh (FetchResponse 200 (Ok sample_body)) new_coordinator))
          = Ok (dict_get sample_dict "scNum" (VStr "Unknown")).
Proof.
  split; [reflexivity|]. split; [reflexivity|].
  split; [vm_compute; reflexivity|]. split; [vm_compute; discriminate|].
  apply (X1_published_values sample_body sample_dict
           (data ready_coordinator) new_coordinator).
  - reflexivity.
  - reflexivity.
  - vm_compute. reflexivity.
  - vm_compute. discriminate.
Defined.

(** X2.  After any run of polls, the monthly sensor reports [None] when
    the coordinator holds [None] or a record without entries; otherwise
    it reports the [consumed_units], a float, of the first entry of
    [meter_analytics], and the key (year, place of the month) of that
    entry is less than or equal to the key of every other entry: the
    value is that of the earliest month of the record. *)
Theorem X2_monthly_sensor_reports_least_key (nets : list fetch_outcome) :
  (data (run_ticks nets new_coordinator) = VNone
   /\ native_value ElectricityMonthlyDataSensor (run_ticks nets new_coordinator)
      = Ok VNone)
  \/ exists meter_analytics,
       py_getitem (data (run_ticks nets new_coordinator)) "meter_analytics"
       = Ok (VList meter_analytics)
       /\ match meter_analytics with
          | [] =>
              native_value ElectricityMonthlyDataSensor
                (run_ticks nets new_coordinator) = Ok VNone
          | first :: rest =>
              (exists f,
                  py_getitem first "consumed_units" = Ok (VFloat f)
                  /\ native_value ElectricityMonthlyDataSensor
                       (run_ticks nets new_coordinator) = Ok (VFloat f))
              /\ Forall (key_le first) rest
          end.
Proof.
  destruct (ticks_none_or_record nets)
    as [Hd | (mn & cid & sc & tb & td & ma & Hrec & Hreb & Hs)].
  - left. split; [exact Hd|]. unfold native_value. now rewrite Hd.
  - right. exists ma.
    destruct (native_value_record _ _ _ _ _ _ _ Hrec)
      as (_ & _ & _ & _ & _ & Hm & _).
    split; [rewrite Hrec; reflexivity|].
    destruct ma as [| first rest]; [exact Hm|].
    inversion Hreb as [| ? ? Hfirst _]; subst.
    inversion Hs as [| ? ? _ Hle]; subst.
    destruct (rebate_entry_units _ Hfirst) as [f Hf].
    split; [exists f; split; [exact Hf | now rewrite Hm] | exact Hle].
Qed.

(** X3.  After any run of polls no sensor raises: every [native_value]
    and the monthly attributes are computed.  A sensor that declares a
    unit of measurement (the two amounts in NPR, the monthly sensor in
    kWh) reports a float or [None]. *)
Theorem X3_sensors_never_raise (nets : list fetch_outcome) (s : sensor) :
  (exists v,
      native_value s (run_ticks nets new_coordinator) = Ok v
      /\ (native_unit_of_measurement s <> None -> float_or_none v))
  /\ exists attributes,
       extra_state_attributes (run_ticks nets new_coordinator) = Ok attributes.
Proof.
  destruct (ticks_none_or_record nets)
    as [Hd | (mn & cid & sc & tb & td & ma & Hrec & Hreb & _)].
  - split.
    + exists VNone. unfold native_value. rewrite Hd.
      split; [now destruct s | intros _; now left].
    + exists (VDict []). unfold extra_state_attributes. now rewrite Hd.
  - destruct (native_value_record _ _ _ _ _ _ _ Hrec)
      as (H1 & H2 & H3 & H4 & H5 & H6 & H7).
    split; [|eexists; exact H7].
    destruct s.
    + exists (VFloat tb). split; [exact H1 | intros _; right; now exists tb].
    + exists (VFloat td). split; [exact H2 | intros _; right; now exists td].
    + exists mn. split; [exact H3 | intros H; now destruct H].
    + exists cid. split; [exact H4 | intros H; now destruct H].
    + exists sc. split; [exact H5 | intros H; now destruct H].
    + destruct ma as [| first rest].
      * exists VNone. split; [exact H6 | intros _; now left].
      * inversion Hreb as [| ? ? Hfirst _]; subst.
        destruct (rebate_entry_units _ Hfirst) as [f Hf].
        exists (VFloat f). split; [now rewrite H6 | intros _; right; now exists f].
Qed.

(** X4.  Whatever the first poll meets, the setup hands over either no
    entity, when the update routine returned [None], or the six sensors,
    one of each class in the order of the source, all with the
    [meter_name] of the record.  The log of the setup is the log of the
    update routine. *)
Theorem X4_setup_entities (net : fetch_outcome) :
  exists entities,
    async_setup_entry net
    = (fst (_async_update_data net),
       snd (_async_refresh net new_coordinator),
       Ok entities)
    /\ ((data (snd (_async_refresh net new_coordinator)) = VNone
         /\ entities = [])
        \/ (exists meter_name,
               is_record (data (snd (_async_refresh net new_coordinator)))
               /\ py_getitem (data (snd (_async_refresh net new_coordinator)))
                    "meter_name" = Ok meter_name
               /\ entities = map (fun s => (s, meter_name)) all_sensors)).
Proof.
  unfold async_setup_entry, async_config_entry_first_refresh, _async_refresh.
  destruct (update_none_or_record net) as [H | (record & H & Hrec)];
    destruct (_async_update_data net) as [logs r]; cbn [fst snd] in *; subst r;
    cbn [last_update_success data].
  - exists []. split; [reflexivity|]. left. now split.
  - rewrite (is_record_truthy _ Hrec).
    pose proof Hrec as (mn & ? & ? & ? & ? & ? & -> & _).
    eexists. split; [reflexivity|]. right. exists mn.
    split; [exact Hrec|]. split; reflexivity.
Qed.

(** X11.  After any run of polls, every entry of the record that the
    coordinator holds has a [rebate_amount] that is its [bill_amount]
    minus its [payable_amount], the float difference of the two floats
    stored beside it, and the entries are in ascending order of their
    keys. *)
Theorem X11_rebate_is_difference (nets : list fetch_outcome) :
  data (run_ticks nets new_coordinator) = VNone
  \/ exists meter_analytics,
       py_getitem (data (run_ticks nets new_coordinator)) "meter_analytics"
       = Ok (VList meter_analytics)
       /\ Forall rebate_is_difference meter_analytics
       /\ StronglySorted key_le meter_analytics.
Proof.
  destruct (ticks_none_or_record nets)
    as [Hd | (mn & cid & sc & tb & td & ma & Hrec & Hreb & Hs)]; [now left|].
  right. exists ma. rewrite Hrec. now repeat split.
Qed.

(** ** Identifiers and names of the entities *)








(** ** The update routine and the normalisation together *)

Lemma getitem_of_get (body payload : value) :
  py_get body "data" VNone = Ok payload ->
  truthy payload = true ->
  py_getitem body "data" = Ok payload.
Proof.
  destruct body; try discriminate. cbn [py_get py_getitem]. unfold dict_get.
  destruct (lookup "data" d); [auto|]. intros [= <-]. discriminate.
Qed.

(** X9.  When the response is HTTP 200 and the [data] of its body is
    truthy, the update routine is the normalisation of that [data]: the
    same returned object and the same log lines, nothing added.  For any
    other status the body is not read: the outcome is [None] and the log
    is the same whatever the body is. *)
Theorem X9_update_is_normalisation :
  (forall body payload,
      py_get body "data" VNone = Ok payload ->
      truthy payload = true ->
      _async_update_data (FetchResponse 200 (Ok body)) = _process_data payload)
  /\ (forall status json json',
         status <> 200 ->
         _async_update_data (FetchResponse status json)
         = _async_update_data (FetchResponse status json')
         /\ snd (_async_update_data (FetchResponse status json)) = Ok VNone).
Proof.
  split.
  - intros body payload Hb Ht.
    unfold _async_update_data. cbn [Z.eqb Pos.eqb].
    rewrite bind_lift_ok, Hb, bind_lift_ok, Ht. cbn [negb].
    rewrite (getitem_of_get _ _ Hb Ht), bind_lift_ok.
    destruct (process_data_returns payload) as [v Hv].
    destruct (_process_data payload) as [l r]. cbn [snd] in Hv. now subst r.
  - intros status json json' Hs. split.
    + unfold _async_update_data.
      destruct (Z.eqb_spec status 200) as [-> | _]; [congruence | reflexivity].
    + now apply update_failed, failed_status.
Qed.

Lemma X9_update_is_normalisation_witness :
  py_get sample_body "data" VNone = Ok (VDict sample_dict)
  /\ truthy (VDict sample_dict) = true
  /\ _async_update_data (FetchResponse 200 (Ok sample_body))
     = _process_data (VDict sample_dict).
Proof.
  split; [reflexivity|]. split; [reflexivity|].
  apply (proj1 X9_update_is_normalisation sample_body (VDict sample_dict));
    reflexivity.
Defined.

(** ** The log of a cycle *)

Lemma fst_bind {A B : Type} (m : M A) (k : A -> M B) :
  fst (bind m k) = match snd m with
                   | Ok a => fst m ++ fst (k a)
                   | Raise _ => fst m
                   end.
Proof.
  destruct m as [l [a | e]]; simpl; [|reflexivity].
  now destruct (k a).
Qed.

(** A loop that ends has met no item that aborts, and has logged one
    line for each item that raises. *)
Lemma process_items_ends (items acc entries : list value) :
  snd (process_items items acc) = Ok entries ->
  forallb (fun item => negb (aborts item)) items = true
  /\ fst (process_items items acc) = item_lines items.
Proof.
  revert acc. induction items as [| item rest IH]; intros acc;
    cbn [process_items forallb]; [now split|].
  unfold item_lines, aborts in *. cbn [flat_map].
  destruct (process_item item) as [p | err] eqn:E.
  - intros H. destruct (IH _ H) as [Hf Hl]. now split.
  - destruct (is_value_or_type_error err) eqn:Ee; [|discriminate].
    rewrite snd_bind, fst_bind. cbn [log_error fst snd negb andb].
    intros H. destruct (IH _ H) as [Hf Hl]. split; [exact Hf|].
    now rewrite Hl.
Qed.

(** An item that aborts ends the loop with its exception or an earlier
    one. *)
Lemma process_items_aborts (items acc : list value) (item : value) :
  In item items -> aborts item = true ->
  exists err, snd (process_items items acc) = Raise err.
Proof.
  revert acc. induction items as [| x rest IH]; intros acc; [intros []|].
  intros Hin Ha. cbn [process_items].
  destruct (process_item x) as [p | err] eqn:E.
  - destruct Hin as [-> | Hin]; [|now apply IH].
    unfold aborts in Ha. rewrite E in Ha. discriminate.
  - destruct (is_value_or_type_error err) eqn:Ee; [|simpl; eauto].
    rewrite snd_bind. cbn [log_error snd].
    destruct Hin as [-> | Hin]; [|now apply IH].
    unfold aborts in Ha. rewrite E, Ee in Ha. discriminate.
Qed.

Lemma item_lines_skipped (items : list value) :
  forallb (fun item => negb (aborts item)) items = true ->
  List.length (item_lines items) = List.length (filter skipped items)
  /\ Forall (fun line => line = ErrorProcessingItem ValueError
                         \/ line = ErrorProcessingItem TypeError)
            (item_lines items).
Proof.
  induction items as [| item rest IH]; cbn [forallb]; [now split|].
  intros H. apply andb_true_iff in H as [Hi Hr].
  destruct (IH Hr) as [Hl Hf].
  unfold item_lines, aborts, skipped in *. cbn [flat_map filter].
  destruct (process_item item) as [p | err]; cbn [app]; [now split|].
  destruct err; try discriminate Hi; cbn [is_value_or_type_error List.length];
    (split; [now rewrite Hl | constructor; auto]).
Qed.

Lemma process_data_body_loop (d : list (string * value)) tb td items :
  py_float (dict_get d "totalBillAmount" (VInt 0)) = Ok tb ->
  py_float (dict_get d "totalDuesAmount" (VInt 0)) = Ok td ->
  py_iter (dict_get d "meterAnalytics" (VList [])) = Ok items ->
  process_data_body (VDict d)
  = (meter_analytics <- process_items items [] ;;
     meter_analytics <-
       lift (if truthy (VList meter_analytics)
             then list_sort sort_key meter_analytics
             else Ok meter_analytics) ;;
     ret (VDict [ ("meter_name", dict_get d "meterName" (VStr "Unknown"));
                  ("consumer_id", dict_get d "consumerId" (VStr "Unknown"));
                  ("sc_num", dict_get d "scNum" (VStr "Unknown"));
                  ("total_bill_amount", VFloat tb);
                  ("total_dues_amount", VFloat td);
                  ("meter_analytics", VList meter_analytics) ])).
Proof.
  intros Hb Hd Hi. unfold process_data_body. cbn [py_get].
  rewrite !bind_lift_ok, Hb, bind_lift_ok, bind_lift_ok, Hd, bind_lift_ok.
  rewrite bind_lift_ok, Hi, bind_lift_ok. reflexivity.
Qed.

(** X6.  The log of [_process_data] tells its outcome.  When a record is
    returned, the log holds one line "Error processing meter analytics
    item" for each raw item that was skipped, in the raw order, each for
    a [ValueError] or a [TypeError], and nothing else.  When [None] is
    returned, the last line of the log is "Error processing data". *)
Theorem X6_log_tells_outcome :
  (forall d record,
      snd (_process_data (VDict d)) = Ok record -> record <> VNone ->
      exists items,
        py_iter (dict_get d "meterAnalytics" (VList [])) = Ok items
        /\ fst (_process_data (VDict d)) = item_lines items
        /\ List.length (fst (_process_data (VDict d)))
           = List.length (filter skipped items)
        /\ Forall (fun line => line = ErrorProcessingItem ValueError
                               \/ line = ErrorProcessingItem TypeError)
                  (fst (_process_data (VDict d))))
  /\ (forall payload,
         snd (_process_data payload) = Ok VNone ->
         exists logs err,
           fst (_process_data payload) = logs ++ [ErrorProcessingData err]).
Proof.
  split; [|exact process_data_none_logged].
  intros d record Hr Hn.
  destruct (process_data_record _ _ Hr Hn)
    as (d' & tb & td & items & out & [= <-] & Hb & Hd & Hi & Hl & Hs & _).
  exists items. split; [exact Hi|].
  destruct (process_items_ends _ _ _ Hl) as [Hf Hlines].
  assert (Hlog : fst (_process_data (VDict d)) = item_lines items).
  { unfold _process_data.
    rewrite (process_data_body_loop d tb td items Hb Hd Hi).
    destruct (process_items items []) as [l r]. cbn [fst snd] in *. subst r l.
    cbn [bind]. rewrite Hs. cbn. now rewrite !app_nil_r. }
  rewrite Hlog. destruct (item_lines_skipped items Hf) as [H1 H2].
  now repeat split.
Qed.

Lemma X6_log_tells_outcome_witness :
  snd (_process_data (VDict mixed_payload))
  = Ok (data (snd (_async_refresh
                     (FetchResponse 200 (Ok (VDict [("data", VDict mixed_payload)])))
                     new_coordinator)))
  /\ fst (_process_data (VDict mixed_payload))
     = [ErrorProcessingItem ValueError; ErrorProcessingItem TypeError]
  /\ exists items,
       py_iter (dict_get mixed_payload "meterAnalytics" (VList [])) = Ok items
       /\ fst (_process_data (VDict mixed_payload)) = item_lines items
       /\ List.length (fst (_process_data (VDict mixed_payload)))
          = List.length (filter skipped items)
       /\ Forall (fun line => line = ErrorProcessingItem ValueError
                              \/ line = ErrorProcessingItem TypeError)
                 (fst (_process_data (VDict mixed_payload))).
Proof.
  split; [vm_compute; reflexivity|]. split; [vm_compute; reflexivity|].
  apply (proj1 X6_log_tells_outcome mixed_payload
           (data (snd (_async_refresh
                         (FetchResponse 200 (Ok (VDict [("data", VDict mixed_payload)])))
                         new_coordinator)))).
  - vm_compute. reflexivity.
  - vm_compute. discriminate.
Defined.

(** ** Items and payloads of an unexpected shape *)

Lemma aborting_item_fails_cycle (d : list (string * value)) (items : list value) item :
  py_iter (dict_get d "meterAnalytics" (VList [])) = Ok items ->
  In item items -> aborts item = true ->
  snd (_process_data (VDict d)) = Ok VNone.
Proof.
  intros Hi Hin Ha. rewrite process_data_dict, Hi.
  destruct (py_float (dict_get d "totalBillAmount" (VInt 0))); [|reflexivity].
  destruct (py_float (dict_get d "totalDuesAmount" (VInt 0))); [|reflexivity].
  cbn [rbind].
  destruct (process_items_aborts items [] item Hin Ha) as [err ->].
  reflexivity.
Qed.

Lemma overflow_is_int (v : value) :
  py_float v = Raise OverflowError -> exists z, v = VInt z.
Proof.
  destruct v; simpl; try discriminate; [eauto|].
  destruct (PyFloat.of_string s); discriminate.
Qed.

(** An item that raises does so from a numeric field that is present. *)
Lemma process_item_raises_from_field (m : list (string * value)) err :
  process_item (VDict m) = Raise err ->
  exists key v,
    In key ["consumedUnits"; "billAmt"; "payableAmount"]
    /\ lookup key m = Some v /\ py_float v = Raise err.
Proof.
  assert (Hfield : forall key,
             (exists f, py_float (dict_get m key (VInt 0)) = Ok f)
             \/ (exists v e, lookup key m = Some v /\ py_float v = Raise e
                             /\ py_float (dict_get m key (VInt 0)) = Raise e)).
  { intros key. unfold dict_get. destruct (lookup key m) as [v |] eqn:El.
    - destruct (py_float v) as [f | e] eqn:E;
        [left; now exists f | right; exists v, e; auto].
    - left. now exists PyFloat.zero. }
  rewrite process_item_dict.
  destruct (Hfield "consumedUnits") as [[cu ->] | (v & e & Hl & Hv & ->)];
    cbn [rbind];
    [|intros [= <-]; exists "consumedUnits", v; simpl; auto].
  destruct (Hfield "billAmt") as [[b ->] | (v & e & Hl & Hv & ->)];
    cbn [rbind];
    [|intros [= <-]; exists "billAmt", v; simpl; auto].
  destruct (Hfield "payableAmount") as [[p ->] | (v & e & Hl & Hv & ->)];
    cbn [rbind];
    [discriminate | intros [= <-]; exists "payableAmount", v; simpl; auto].
Qed.

(** A numeric field overflows only when it is present and holds an
    integer too large for a float. *)
Lemma field_overflow (m : list (string * value)) (key : string) :
  py_float (dict_get m key (VInt 0)) = Raise OverflowError
  <-> exists z, lookup key m = Some (VInt z)
                /\ PyFloat.of_int z = Raise OverflowError.
Proof.
  unfold dict_get. split.
  - destruct (lookup key m) as [v |] eqn:El.
    + intros H. destruct (overflow_is_int v H) as [z ->].
      exists z. split; [reflexivity | exact H].
    + rewrite py_float_default. discriminate.
  - intros (z & -> & Hz). exact Hz.
Qed.

(** A numeric field that raises anything but [ValueError] and
    [TypeError] overflows. *)
Lemma field_aborts (v : value) err :
  py_float v = Raise err -> is_value_or_type_error err = false ->
  err = OverflowError.
Proof.
  intros H He. destruct (py_float_raises v err H) as [-> | [-> | ->]];
    [discriminate He | discriminate He | reflexivity].
Qed.

(** The objects that abort: the first numeric field that [float]
    refuses, in the order [consumedUnits], [billAmt], [payableAmount],
    holds an integer too large for a float. *)
Lemma aborting_object (m : list (string * value)) :
  aborts (VDict m) = true
  <-> (exists z,
          lookup "consumedUnits" m = Some (VInt z)
          /\ PyFloat.of_int z = Raise OverflowError)
      \/ (exists consumed_units z,
             py_float (dict_get m "consumedUnits" (VInt 0)) = Ok consumed_units
             /\ lookup "billAmt" m = Some (VInt z)
             /\ PyFloat.of_int z = Raise OverflowError)
      \/ (exists consumed_units bill_amount z,
             py_float (dict_get m "consumedUnits" (VInt 0)) = Ok consumed_units
             /\ py_float (dict_get m "billAmt" (VInt 0)) = Ok bill_amount
             /\ lookup "payableAmount" m = Some (VInt z)
             /\ PyFloat.of_int z = Raise OverflowError).
Proof.
  rewrite <- (field_overflow m "consumedUnits").
  unfold aborts. rewrite process_item_dict.
  pose proof (field_overflow m "billAmt") as Hb.
  pose proof (field_overflow m "payableAmount") as Hp.
  destruct (py_float (dict_get m "consumedUnits" (VInt 0))) as [cu | e1] eqn:E1;
    cbn [rbind].
  2:{ split.
      - intros Ha. apply negb_true_iff in Ha. left.
        now rewrite (field_aborts _ _ E1 Ha).
      - intros [[= ->] | [(c & z & [=] & _) | (c & b & z & [=] & _)]].
        reflexivity. }
  destruct (py_float (dict_get m "billAmt" (VInt 0))) as [b | e2] eqn:E2;
    cbn [rbind].
  2:{ split.
      - intros Ha. apply negb_true_iff in Ha. right. left.
        rewrite (field_aborts _ _ E2 Ha) in *.
        destruct (proj1 Hb eq_refl) as (z & Hl & Hz). exists cu, z. auto.
      - intros [[=] | [(c & z & _ & Hl & Hz) | (c & b & z & _ & [=] & _)]].
        assert (H : Raise e2 = Raise OverflowError) by (apply Hb; eauto).
        injection H as ->. reflexivity. }
  destruct (py_float (dict_get m "payableAmount" (VInt 0))) as [p | e3] eqn:E3;
    cbn [rbind].
  - split; [discriminate|].
    intros [[=] | [(c & z & _ & Hl & Hz) | (c & b' & z & _ & _ & Hl & Hz)]].
    + assert (H : Ok b = Raise OverflowError) by (apply Hb; eauto).
      discriminate H.
    + assert (H : Ok p = Raise OverflowError) by (apply Hp; eauto).
      discriminate H.
  - split.
    + intros Ha. apply negb_true_iff in Ha. right. right.
      rewrite (field_aborts _ _ E3 Ha) in *.
      destruct (proj1 Hp eq_refl) as (z & Hl & Hz). exists cu, b, z. auto.
    + intros [[=] | [(c & z & _ & Hl & Hz) | (c & b' & z & _ & _ & Hl & Hz)]].
      * assert (H : Ok b = Raise OverflowError) by (apply Hb; eauto).
        discriminate H.
      * assert (H : Raise e3 = Raise OverflowError) by (apply Hp; eauto).
        injection H as ->. reflexivity.
Qed.

(** X12.  A raw item that is not an object, or an object in which the
    first numeric field that [float] refuses, in the order
    [consumedUnits], [billAmt], [payableAmount], holds an integer too
    large for a float, is not skipped: it ends the loop, and the
    normalisation returns [None] for the whole cycle, whatever the other
    items are.  These are the only items that do so: an object aborts
    exactly when it is of that kind, and it then raises
    [OverflowError]. *)
Theorem X12_aborting_items :
  (forall d items item,
      py_iter (dict_get d "meterAnalytics" (VList [])) = Ok items ->
      In item items -> aborts item = true ->
      snd (_process_data (VDict d)) = Ok VNone)
  /\ (forall item, (forall m, item <> VDict m) -> aborts item = true)
  /\ (forall m,
         aborts (VDict m) = true
         <-> (exists z,
                 lookup "consumedUnits" m = Some (VInt z)
                 /\ PyFloat.of_int z = Raise OverflowError)
             \/ (exists consumed_units z,
                    py_float (dict_get m "consumedUnits" (VInt 0))
                    = Ok consumed_units
                    /\ lookup "billAmt" m = Some (VInt z)
                    /\ PyFloat.of_int z = Raise OverflowError)
             \/ (exists consumed_units bill_amount z,
                    py_float (dict_get m "consumedUnits" (VInt 0))
                    = Ok consumed_units
                    /\ py_float (dict_get m "billAmt" (VInt 0)) = Ok bill_amount
                    /\ lookup "payableAmount" m = Some (VInt z)
                    /\ PyFloat.of_int z = Raise OverflowError))
  /\ (forall m,
         aborts (VDict m) = true ->
         exists key z,
           In key ["consumedUnits"; "billAmt"; "payableAmount"]
           /\ lookup key m = Some (VInt z)
           /\ PyFloat.of_int z = Raise OverflowError
           /\ process_item (VDict m) = Raise OverflowError).
Proof.
  split; [exact aborting_item_fails_cycle|]. split; [|split].
  - intros item H. unfold aborts. now rewrite (process_item_not_dict item H).
  - exact aborting_object.
  - intros m. unfold aborts.
    destruct (process_item (VDict m)) as [p | err] eqn:E; [discriminate|].
    intros Ha.
    destruct (process_item_raises_from_field m err E)
      as (key & v & Hin & Hl & Hv).
    destruct (py_float_raises v err Hv) as [-> | [-> | ->]]; try discriminate Ha.
    destruct (overflow_is_int v Hv) as [z ->].
    exists key, z. now repeat split.
Qed.

Lemma X12_aborting_items_witness :
  (py_iter (dict_get (payload_with_analytics
                        (VList [sample_entry "Poush/80"; huge_units_entry]))
              "meterAnalytics" (VList []))
   = Ok [sample_entry "Poush/80"; huge_units_entry]
   /\ In huge_units_entry [sample_entry "Poush/80"; huge_units_entry]
   /\ aborts huge_units_entry = true
   /\ snd (_process_data
             (VDict (payload_with_analytics
                       (VList [sample_entry "Poush/80"; huge_units_entry]))))
      = Ok VNone)
  /\ (py_iter (dict_get (payload_with_analytics
                           (VList [huge_bill_entry; sample_entry "Poush/80"]))
                 "meterAnalytics" (VList []))
      = Ok [huge_bill_entry; sample_entry "Poush/80"]
      /\ In huge_bill_entry [huge_bill_entry; sample_entry "Poush/80"]
      /\ aborts huge_bill_entry = true
      /\ snd (_process_data
                (VDict (payload_with_analytics
                          (VList [huge_bill_entry; sample_entry "Poush/80"]))))
         = Ok VNone).
Proof.
  split.
  - split; [reflexivity|]. split; [simpl; auto|].
    split; [vm_compute; reflexivity|].
    apply (proj1 X12_aborting_items
             (payload_with_analytics
                (VList [sample_entry "Poush/80"; huge_units_entry]))
             [sample_entry "Poush/80"; huge_units_entry] huge_units_entry).
    + reflexivity.
    + simpl. auto.
    + vm_compute. reflexivity.
  - assert (Ha : aborts huge_bill_entry = true).
    { apply (proj1 (proj2 (proj2 X12_aborting_items))).
      right. left.
      exists (S754_finite false 5277655813324800 (-46)), (2 ^ 1024).
      split; [vm_compute; reflexivity|].
      split; [reflexivity | vm_compute; reflexivity]. }
    split; [reflexivity|]. split; [simpl; auto|]. split; [exact Ha|].
    apply (proj1 X12_aborting_items
             (payload_with_analytics
                (VList [huge_bill_entry; sample_entry "Poush/80"]))
             [huge_bill_entry; sample_entry "Poush/80"] huge_bill_entry).
    + reflexivity.
    + simpl. auto.
    + exact Ha.
Defined.

(** X13.  When the normalisation returns a record, the raw
    [meterAnalytics] is a list, or it is an empty string or an empty
    object, which give a record without entries; a key that is absent
    gives a record without entries too.  Any other value ([null], a
    number, a boolean, a non-empty string or object) makes the
    normalisation return [None]. *)
Theorem X13_analytics_not_a_list (d : list (string * value)) (record : value) :
  snd (_process_data (VDict d)) = Ok record -> record <> VNone ->
  (forall v,
      lookup "meterAnalytics" d = Some v ->
      (exists items, v = VList items)
      \/ ((v = VStr EmptyString \/ v = VDict [])
          /\ py_getitem record "meter_analytics" = Ok (VList [])))
  /\ (lookup "meterAnalytics" d = None ->
      py_getitem record "meter_analytics" = Ok (VList [])).
Proof.
  intros Hr Hn.
  destruct (process_data_record _ _ Hr Hn)
    as (d' & tb & td & items & out & [= <-] & _ & _ & Hi & Hl & Hs & ->).
  assert (Hempty : items = [] -> py_getitem
            (VDict [ ("meter_name", dict_get d "meterName" (VStr "Unknown"));
                     ("consumer_id", dict_get d "consumerId" (VStr "Unknown"));
                     ("sc_num", dict_get d "scNum" (VStr "Unknown"));
                     ("total_bill_amount", VFloat tb);
                     ("total_dues_amount", VFloat td);
                     ("meter_analytics", VList out) ]) "meter_analytics"
            = Ok (VList [])).
  { intros ->. cbn in Hs. injection Hs as <-. now getitem. }
  assert (Hfirst : forall x rest,
             items = x :: rest -> (forall m, x <> VDict m) -> False).
  { intros x rest -> Hx.
    destruct (process_items_aborts (x :: rest) [] x (or_introl eq_refl)) as [e He].
    - unfold aborts. now rewrite (process_item_not_dict x Hx).
    - congruence. }
  split.
  - intros v Hv. rewrite (dict_get_present _ _ _ _ Hv) in Hi.
    destruct v as [| b | z | f | s | l | m]; try discriminate Hi.
    + right. cbn in Hi. injection Hi as Hi.
      destruct s as [| c s]; [split; [now left | now apply Hempty]|].
      exfalso. cbn in Hi. eapply Hfirst; [now rewrite <- Hi | discriminate].
    + left. now exists l.
    + right. cbn in Hi. injection Hi as Hi.
      destruct m as [| [k w] m]; [split; [now right | now apply Hempty]|].
      exfalso. cbn in Hi. eapply Hfirst; [now rewrite <- Hi | discriminate].
  - intros Hv. rewrite (dict_get_absent _ _ _ Hv) in Hi.
    cbn in Hi. injection Hi as Hi. now apply Hempty.
Qed.

Lemma X13_analytics_not_a_list_witness :
  snd (_process_data (VDict (payload_with_analytics (VDict []))))
  = Ok (VDict [ ("meter_name", VStr "Meter-1");
                ("consumer_id", VStr "Unknown");
                ("sc_num", VStr "Unknown");
                ("total_bill_amount", VFloat PyFloat.zero);
                ("total_dues_amount", VFloat PyFloat.zero);
                ("meter_analytics", VList []) ])
  /\ lookup "meterAnalytics" (payload_with_analytics (VDict [])) = Some (VDict [])
  /\ ((exists items, VDict [] = VList items)
      \/ ((VDict [] = VStr EmptyString \/ VDict [] = VDict [])
          /\ py_getitem
               (VDict [ ("meter_name", VStr "Meter-1");
                        ("consumer_id", VStr "Unknown");
                        ("sc_num", VStr "Unknown");
                        ("total_bill_amount", VFloat PyFloat.zero);
                        ("total_dues_amount", VFloat PyFloat.zero);
                        ("meter_analytics", VList []) ]) "meter_analytics"
             = Ok (VList []))).
Proof.
  split; [reflexivity|]. split; [reflexivity|].
  refine (proj1 (X13_analytics_not_a_list
                   (payload_with_analytics (VDict [])) _ _ _) (VDict []) _).
  - reflexivity.
  - discriminate.
  - reflexivity.
Defined.

Lemma process_item_month (m : list (string * value)) (processed_item : value) :
  process_item (VDict m) = Ok processed_item ->
  py_getitem processed_item "month" = Ok (dict_get m "month" (VStr "Unknown")).
Proof.
  rewrite process_item_dict.
  destruct (py_float (dict_get m "consumedUnits" (VInt 0))); simpl; [|discriminate].
  destruct (py_float (dict_get m "billAmt" (VInt 0))); simpl; [|discriminate].
  destruct (py_float (dict_get m "payableAmount" (VInt 0))); simpl; [|discriminate].
  intros [= <-]. reflexivity.
Qed.

(** X14.  The month of a processed item is the raw [month], or "Unknown"
    when the key is absent, and then its key is (0, 0).  A month that is
    not a string is not tolerated in the same way: for [null], a boolean
    or a number the key raises [TypeError]; for a list or an object the
    key raises [AttributeError] when it holds the slash and is (0, 0)
    otherwise.  An item whose key raises makes the normalisation return
    [None] for the whole cycle. *)
Theorem X14_month_of_unexpected_type
  (m : list (string * value)) (processed_item : value) :
  process_item (VDict m) = Ok processed_item ->
  py_getitem processed_item "month" = Ok (dict_get m "month" (VStr "Unknown"))
  /\ (lookup "month" m = None -> sort_key processed_item = Ok (0, 0))
  /\ (forall v,
         lookup "month" m = Some v ->
         (forall s, v <> VStr s) ->
         sort_key processed_item
         = match slash_in v with
           | Raise err => Raise err
           | Ok true => Raise AttributeError
           | Ok false => Ok (0, 0)
           end)
  /\ (lookup "month" m = Some VNone -> sort_key processed_item = Raise TypeError)
  /\ (forall d items err,
         py_iter (dict_get d "meterAnalytics" (VList [])) = Ok items ->
         In (VDict m) items ->
         sort_key processed_item = Raise err ->
         snd (_process_data (VDict d)) = Ok VNone).
Proof.
  intros Hp. pose proof (process_item_month m processed_item Hp) as Hm.
  assert (Hv : forall v, lookup "month" m = Some v -> (forall s, v <> VStr s) ->
                         sort_key processed_item
                         = match slash_in v with
                           | Raise err => Raise err
                           | Ok true => Raise AttributeError
                           | Ok false => Ok (0, 0)
                           end).
  { intros v Hl Hs. unfold sort_key. rewrite Hm, (dict_get_present _ _ _ _ Hl).
    cbn [rbind].
    destruct v as [| b | z | f | s | l | dd]; try reflexivity.
    - now destruct (Hs s).
    - cbn [slash_in rbind]. now destruct (existsb _ l).
    - cbn [slash_in rbind]. now destruct (existsb _ dd). }
  split; [exact Hm|]. split; [|split; [exact Hv|split]].
  - intros Hl. apply (sort_key_without_slash _ "Unknown"); [|reflexivity].
    now rewrite Hm, (dict_get_absent _ _ _ Hl).
  - intros Hl. rewrite (Hv VNone Hl); [reflexivity | discriminate].
  - intros d items err Hi Hin Hk.
    apply (key_raises_fails_cycle d items processed_item err Hi); [|exact Hk].
    unfold kept. apply in_flat_map. exists (VDict m). split; [exact Hin|].
    rewrite Hp. now left.
Qed.

Lemma X14_month_of_unexpected_type_witness :
  process_item null_month_entry
  = Ok (VDict [ ("month", VNone);
                ("status", VStr "Unknown");
                ("consumed_units", VFloat (S754_finite false 5629499534213120 (-49)));
                ("bill_amount", VFloat PyFloat.zero);
                ("payable_amount", VFloat PyFloat.zero);
                ("rebate_amount", VFloat PyFloat.zero) ])
  /\ sort_key (VDict [ ("month", VNone);
                       ("status", VStr "Unknown");
                       ("consumed_units",
                        VFloat (S754_finite false 5629499534213120 (-49)));
                       ("bill_amount", VFloat PyFloat.zero);
                       ("payable_amount", VFloat PyFloat.zero);
                       ("rebate_amount", VFloat PyFloat.zero) ])
     = Raise TypeError.
Proof.
  split; [vm_compute; reflexivity|].
  refine (proj1 (proj2 (proj2 (proj2
            (X14_month_of_unexpected_type
               [("month", VNone); ("consumedUnits", VInt 10)] _ _)))) _).
  - vm_compute. reflexivity.
  - reflexivity.
Defined.

(** ** The order of the months *)

Lemma sorted_app_later {A : Type} (R : A -> A -> Prop) (before after : list A) (y : A) :
  StronglySorted R (before ++ y :: after) -> Forall (R y) after.
Proof.
  induction before as [| b before IH]; cbn [app]; intros H;
    inversion H as [| ? ? Hs Hf]; subst; [exact Hf | now apply IH].
Qed.

(** X7.  In the [meter_analytics] of a record, an entry whose month has
    no slash is never preceded by an entry of a positive year: every
    entry before it has a year that is zero or negative.  It is not
    always first: an entry with a negative year comes before it. *)
Theorem X7_months_without_slash_come_early :
  (forall payload record before y after x s,
      snd (_process_data payload) = Ok record ->
      py_getitem record "meter_analytics" = Ok (VList (before ++ y :: after)) ->
      In x after ->
      py_getitem x "month" = Ok (VStr s) ->
      PyStr.contains "/" s = false ->
      exists k, sort_key y = Ok k /\ tuple_le k (0, 0) /\ fst k <= 0)
  /\ (let? record := snd (_process_data negative_year_payload) in months_of record)
     = Ok [VStr "Baisakh/-1"; VStr "Unknown"].
Proof.
  split; [|vm_compute; reflexivity].
  intros payload record before y after x s Hr Hm Hin Hx Hs.
  assert (Hn : record <> VNone) by (intros ->; discriminate).
  destruct (process_data_record _ _ Hr Hn)
    as (d & tb & td & items & out & _ & _ & _ & _ & _ & Hsort & ->).
  revert Hm. getitem. intros [= ->].
  apply sorted_or_empty_entries in Hsort. destruct Hsort as (Hk & Ho & _ & _).
  rewrite Forall_forall in Hk.
  destruct (Hk y) as [k Hy]; [apply in_or_app; right; now left|].
  exists k. split; [exact Hy|].
  pose proof (sorted_app_later _ _ _ _ Ho) as Hle.
  rewrite Forall_forall in Hle. specialize (Hle x Hin).
  unfold key_le, key_of in Hle.
  rewrite Hy, (sort_key_without_slash x s Hx Hs) in Hle.
  split; [exact Hle|]. unfold tuple_le in Hle. cbn [fst snd] in Hle. lia.
Qed.

Lemma X7_months_without_slash_come_early_witness :
  snd (_process_data negative_year_payload)
  = snd (_async_update_data
           (FetchResponse 200 (Ok (VDict [("data", negative_year_payload)]))))
  /\ exists k,
       sort_key (VDict [ ("month", VStr "Baisakh/-1");
                         ("status", VStr "PAID");
                         ("consumed_units",
                          VFloat (S754_finite false 8444249301319680 (-46)));
                         ("bill_amount",
                          VFloat (S754_finite false 8360686417608704 (-43)));
                         ("payable_amount",
                          VFloat (S754_finite false 7916483719987200 (-43)));
                         ("rebate_amount",
                          VFloat (S754_finite false 7107243161944064 (-47))) ])
       = Ok k
       /\ tuple_le k (0, 0) /\ fst k <= 0.
Proof.
  split; [vm_compute; reflexivity|].
  refine (proj1 X7_months_without_slash_come_early
            negative_year_payload
            (match snd (_process_data negative_year_payload) with
             | Ok record => record
             | Raise _ => VNone
             end)
            [] _
            [VDict [ ("month", VStr "Unknown");
                     ("status", VStr "Unknown");
                     ("consumed_units",
                      VFloat (S754_finite false 5629499534213120 (-50)));
                     ("bill_amount", VFloat PyFloat.zero);
                     ("payable_amount", VFloat PyFloat.zero);
                     ("rebate_amount", VFloat PyFloat.zero) ]]
            _ "Unknown" _ _ _ _ _).
  - vm_compute. reflexivity.
  - vm_compute. reflexivity.
  - left. reflexivity.
  - reflexivity.
  - reflexivity.
Defined.

(** The place that [index] returns is the place of the name. *)
Lemma list_index_nth (l : list string) (x : string) (i : Z) :
  list_index l x = Ok i ->
  0 <= i < Z.of_nat (List.length l) /\ nth_error l (Z.to_nat i) = Some x.
Proof.
  revert i. induction l as [| y r IH]; intros i; cbn [list_index]; [discriminate|].
  destruct (String.eqb_spec y x) as [-> | Hne].
  - intros [= <-]. cbn [List.length]. split; [lia | reflexivity].
  - destruct (list_index r x) as [j |]; cbn [rbind]; [|discriminate].
    intros [= <-]. destruct (IH j eq_refl) as [Hj Hn].
    cbn [List.length]. split; [lia|].
    replace (Z.to_nat (j + 1)) with (S (Z.to_nat j)) by lia. exact Hn.
Qed.

(** X8.  The place of a month name in the calendar is between 0 and 11
    and is the place where the calendar holds that name, so that two
    names with the same place are the same name.  Hence two entries
    whose months have the slash tie in the sort only when they have the
    same month name and the same year number: the sort puts the entries
    of different months in one order only. *)
Theorem X8_ties_are_same_month :
  (forall name i,
      list_index NEPALI_MONTHS_ORDER name = Ok i ->
      0 <= i <= 11
      /\ nth_error NEPALI_MONTHS_ORDER (Z.to_nat i) = Some name)
  /\ (forall x1 x2 s1 s2 name1 suffix1 rest1 name2 suffix2 rest2 k,
         py_getitem x1 "month" = Ok (VStr s1) ->
         PyStr.split "/" s1 = name1 :: suffix1 :: rest1 ->
         py_getitem x2 "month" = Ok (VStr s2) ->
         PyStr.split "/" s2 = name2 :: suffix2 :: rest2 ->
         sort_key x1 = Ok k ->
         sort_key x2 = Ok k ->
         name1 = name2
         /\ py_int suffix1 = Ok (fst k) /\ py_int suffix2 = Ok (fst k)).
Proof.
  assert (Hplace : forall name i,
             list_index NEPALI_MONTHS_ORDER name = Ok i ->
             0 <= i <= 11
             /\ nth_error NEPALI_MONTHS_ORDER (Z.to_nat i) = Some name).
  { intros name i H. apply list_index_nth in H as [Hi Hn].
    cbn [NEPALI_MONTHS_ORDER List.length] in Hi. split; [lia | exact Hn]. }
  split; [exact Hplace|].
  intros x1 x2 s1 s2 n1 f1 r1 n2 f2 r2 k Hm1 Hs1 Hm2 Hs2 Hk1 Hk2.
  rewrite (sort_key_with_slash x1 s1 n1 f1 r1 Hm1 Hs1) in Hk1.
  rewrite (sort_key_with_slash x2 s2 n2 f2 r2 Hm2 Hs2) in Hk2.
  destruct (py_int f1) as [y1 |]; cbn [rbind] in Hk1; [|discriminate].
  destruct (py_int f2) as [y2 |]; cbn [rbind] in Hk2; [|discriminate].
  destruct (list_index NEPALI_MONTHS_ORDER n1) as [i1 |] eqn:E1;
    cbn [rbind] in Hk1; [|discriminate].
  destruct (list_index NEPALI_MONTHS_ORDER n2) as [i2 |] eqn:E2;
    cbn [rbind] in Hk2; [|discriminate].
  injection Hk1 as <-. injection Hk2 as -> ->. cbn [fst].
  split; [|now split].
  destruct (Hplace _ _ E1) as [_ H1]. destruct (Hplace _ _ E2) as [_ H2].
  congruence.
Qed.

Lemma X8_ties_are_same_month_witness :
  list_index NEPALI_MONTHS_ORDER "Poush" = Ok 8
  /\ 0 <= 8 <= 11
  /\ nth_error NEPALI_MONTHS_ORDER (Z.to_nat 8) = Some "Poush".
Proof.
  split; [reflexivity|].
  apply (proj1 X8_ties_are_same_month "Poush" 8). reflexivity.
Defined.

(** ** The order of the raw items *)

Lemma kept_permutation (items items' : list value) :
  Permutation items items' -> Permutation (kept items) (kept items').
Proof. intros H. unfold kept. now apply Permutation_flat_map. Qed.

Lemma no_abort_permutation (items items' : list value) :
  Permutation items items' ->
  forallb (fun item => negb (aborts item)) items = true ->
  forallb (fun item => negb (aborts item)) items' = true.
Proof.
  intros Hp H. rewrite forallb_forall in *. intros x Hx. apply H.
  eapply Permutation_in; [symmetry; exact Hp | exact Hx].
Qed.

(** The loop ends exactly when no item aborts. *)
Lemma process_items_no_abort (items acc : list value) :
  forallb (fun item => negb (aborts item)) items = true ->
  snd (process_items items acc) = Ok (acc ++ kept items).
Proof.
  intros H. apply process_items_total. rewrite forallb_forall in H.
  apply Forall_forall. intros item Hin err E.
  specialize (H item Hin). unfold aborts in H. rewrite E in H.
  now destruct (is_value_or_type_error err).
Qed.

Lemma process_items_abort (items acc : list value) :
  forallb (fun item => negb (aborts item)) items = false ->
  exists err, snd (process_items items acc) = Raise err.
Proof.
  intros H.
  assert (He : existsb aborts items = true).
  { induction items as [| x r IH]; [discriminate|].
    cbn [forallb existsb] in *. destruct (aborts x); [reflexivity|].
    cbn [negb andb orb] in *. now apply IH. }
  apply existsb_exists in He as (item & Hin & Ha).
  now apply (process_items_aborts items acc item).
Qed.

(** Entries with different keys: at most one for each key. *)
Lemma distinct_keys_filter (k : Z * Z) (l : list value) :
  NoDup (map key_of l) -> (List.length (filter (has_key k) l) <= 1)%nat.
Proof.
  induction l as [| x r IH]; cbn [map filter]; [simpl; lia|].
  intros H. inversion H as [| ? ? Hnin Hr]; subst.
  unfold has_key at 1. destruct (tuple_eqb (key_of x) k) eqn:E.
  - apply tuple_eqb_eq in E. subst k.
    assert (Hnil : filter (has_key (key_of x)) r = []).
    { destruct (filter (has_key (key_of x)) r) as [| y t] eqn:Ef; [reflexivity|].
      exfalso. apply Hnin.
      assert (Hy : In y (filter (has_key (key_of x)) r)) by (rewrite Ef; now left).
      apply filter_In in Hy as [Hy Hk]. apply tuple_eqb_eq in Hk.
      rewrite <- Hk. now apply in_map. }
    rewrite Hnil. simpl. lia.
  - now apply IH.
Qed.

Lemma filter_permutation {A : Type} (f : A -> bool) (l1 l2 : list A) :
  Permutation l1 l2 -> Permutation (filter f l1) (filter f l2).
Proof.
  induction 1 as [| x l1 l2 _ IH | x y l | l1 l2 l3 _ IH1 _ IH2]; cbn [filter].
  - constructor.
  - destruct (f x); [now constructor | exact IH].
  - destruct (f x), (f y); try reflexivity. apply perm_swap.
  - now transitivity (filter f l2).
Qed.

Lemma short_permutation_eq {A : Type} (l1 l2 : list A) :
  Permutation l1 l2 -> (List.length l1 <= 1)%nat -> l1 = l2.
Proof.
  intros Hp Hl. destruct l1 as [| a [| b t]].
  - now apply Permutation_nil in Hp.
  - now apply Permutation_length_1_inv in Hp.
  - simpl in Hl. lia.
Qed.

(** The sort of two arrangements of entries with different keys. *)
Lemma list_sort_permutation (entries entries' out : list value) :
  Permutation entries entries' ->
  NoDup (map key_of entries) ->
  list_sort sort_key entries = Ok out ->
  list_sort sort_key entries' = Ok out.
Proof.
  intros Hp Hnd Hs.
  destruct (list_sort_spec _ _ Hs) as (Hk & Ho & Hperm & Hf).
  assert (Hk' : Forall (fun x => exists k, sort_key x = Ok k) entries').
  { eapply Permutation_Forall; [|exact Hk].
    now rewrite <- Hperm. }
  destruct (list_sort_total entries' Hk') as [out' Hs'].
  rewrite Hs'. f_equal.
  destruct (list_sort_spec _ _ Hs') as (_ & Ho' & _ & Hf').
  apply (stable_sort_unique key_of); [exact Ho' | exact Ho|].
  intros k. change (filter (has_key k) out' = filter (has_key k) out).
  rewrite Hf, Hf'. symmetry. apply short_permutation_eq.
  - apply filter_permutation. exact Hp.
  - now apply distinct_keys_filter.
Qed.

(** X10.  The order in which the payload lists its items does not show
    in the outcome when the entries have different keys: two payloads
    that differ only by the arrangement of [meterAnalytics] give the same
    record, or both give [None].  (Entries that tie keep the raw order,
    so that the arrangement of the payload shows between them.) *)
Theorem X10_raw_order_irrelevant (d d' : list (string * value)) (items items' : list value) :
  (forall key, key <> "meterAnalytics" -> lookup key d' = lookup key d) ->
  lookup "meterAnalytics" d = Some (VList items) ->
  lookup "meterAnalytics" d' = Some (VList items') ->
  Permutation items items' ->
  NoDup (map key_of (kept items)) ->
  snd (_process_data (VDict d')) = snd (_process_data (VDict d)).
Proof.
  intros Hsame Hd Hd' Hp Hnd. rewrite !process_data_dict. unfold dict_get.
  rewrite Hd, Hd'.
  rewrite (Hsame "totalBillAmount"), (Hsame "totalDuesAmount"),
    (Hsame "meterName"), (Hsame "consumerId"), (Hsame "scNum") by discriminate.
  destruct (py_float match lookup "totalBillAmount" d with
                     | Some v => v
                     | None => VInt 0
                     end); [|reflexivity].
  destruct (py_float match lookup "totalDuesAmount" d with
                     | Some v => v
                     | None => VInt 0
                     end); [|reflexivity].
  cbn [py_iter rbind].
  destruct (forallb (fun item => negb (aborts item)) items) eqn:Ha.
  2:{ destruct (process_items_abort items [] Ha) as [e ->].
      assert (Ha' : forallb (fun item => negb (aborts item)) items' = false).
      { destruct (forallb _ items') eqn:E; [|reflexivity].
        rewrite (no_abort_permutation items' items (Permutation_sym Hp) E) in Ha.
        discriminate. }
      destruct (process_items_abort items' [] Ha') as [e' ->]. reflexivity. }
  rewrite (process_items_no_abort items [] Ha).
  rewrite (process_items_no_abort items' [] (no_abort_permutation _ _ Hp Ha)).
  cbn [app rbind].
  pose proof (kept_permutation _ _ Hp) as Hk.
  assert (Hnd' : NoDup (map key_of (kept items'))).
  { eapply Permutation_NoDup; [|exact Hnd]. now apply Permutation_map. }
  destruct (kept items) as [| x r] eqn:Ex.
  { apply Permutation_nil in Hk. now rewrite Hk. }
  destruct (kept items') as [| x' r'] eqn:Ex'.
  { symmetry in Hk. apply Permutation_nil in Hk. discriminate. }
  cbn [truthy].
  destruct (list_sort sort_key (x :: r)) as [out |] eqn:Es.
  - now rewrite (list_sort_permutation _ _ _ Hk Hnd Es).
  - destruct (list_sort sort_key (x' :: r')) as [out' |] eqn:Es'; [|reflexivity].
    rewrite (list_sort_permutation _ _ _ (Permutation_sym Hk) Hnd' Es') in Es.
    discriminate.
Qed.

Lemma X10_raw_order_irrelevant_witness :
  lookup "meterAnalytics" sample_dict = Some (VList (map sample_entry sample_months))
  /\ snd (_process_data
            (VDict [ ("meterName", VStr "Meter-1");
                     ("consumerId", VStr "C-42");
                     ("scNum", VStr "SC-7");
                     ("totalBillAmount", VStr "1250.75");
                     ("totalDuesAmount", VInt 300);
                     ("meterAnalytics",
                      VList (map sample_entry
                               ["Baisakh/81"; "Chaitra/80"; "Poush/80"])) ]))
     = snd (_process_data (VDict sample_dict)).
Proof.
  split; [reflexivity|].
  apply (X10_raw_order_irrelevant sample_dict _
           (map sample_entry sample_months)
           (map sample_entry ["Baisakh/81"; "Chaitra/80"; "Poush/80"])).
  - intros key Hkey. cbn [lookup sample_dict].
    repeat (destruct (String.eqb _ key); [reflexivity|]).
    destruct (String.eqb_spec "meterAnalytics" key) as [E | _];
      [now destruct Hkey | reflexivity].
  - reflexivity.
  - reflexivity.
  - cbn [map sample_months]. apply perm_swap.
  - vm_compute. repeat constructor; simpl; intuition discriminate.
Defined.
